(** * DRON_FPV_GAME: the flight core ([physics.js]) and the input handler
    ([input.js]), embedded over the real numbers.

  JavaScript numbers are modelled by [R]: the embedding is the idealised
  real-arithmetic reading of the code (no rounding, no NaN, no infinities).
  The handful of three.js operations that [Drone.update] calls are written
  out in the modules [Vector3], [Quaternion], [Euler], [Object3D] and
  [Raycaster]; everything under [Drone] and [InputHandler] follows the
  repository's own source line by line.  Module [Double] repeats the flight
  core over IEEE doubles, for the behaviour that only overflow and NaN
  show. *)

From stdpp Require Import base option list gmap strings.
From Stdlib Require Import Reals Lra RNsatz.
From Stdlib Require PrimFloat.

Open Scope R_scope.

(** ** JavaScript completions *)

(** A call either returns normally or throws. *)
Inductive completion (A : Type) : Type :=
| Normal (a : A)
| Throw (msg : string).
Arguments Normal {A} a.
Arguments Throw {A} msg.

(** ** three.js: the operations used by the flight core *)

Module Vector3.

Record t : Type := mk { x : R; y : R; z : R }.

(** [new THREE.Vector3()] *)
Definition zero : t := mk 0 0 0.

(** [this.x += (v.x - this.x) * alpha], likewise y and z; [alpha] is used
    as given. *)
Definition lerp (a v : t) (alpha : R) : t :=
  mk (x a + (x v - x a) * alpha)
     (y a + (y v - y a) * alpha)
     (z a + (z v - z a) * alpha).

Definition add (a v : t) : t :=
  mk (x a + x v) (y a + y v) (z a + z v).

Definition multiplyScalar (a : t) (s : R) : t :=
  mk (x a * s) (y a * s) (z a * s).

Definition divideScalar (a : t) (s : R) : t :=
  multiplyScalar a (1 / s).

Definition length (a : t) : R :=
  sqrt (x a * x a + y a * y a + z a * z a).

(** [this.divideScalar(this.length() || 1)] *)
Definition normalize (a : t) : t :=
  divideScalar a (if Req_dec_T (length a) 0 then 1 else length a).

End Vector3.

Module Quaternion.

Record t : Type := mk { x : R; y : R; z : R; w : R }.

Definition identity : t := mk 0 0 0 1.

(** The axis is assumed normalised by the caller. *)
Definition setFromAxisAngle (axis : Vector3.t) (angle : R) : t :=
  let halfAngle := angle / 2 in
  let s := sin halfAngle in
  mk (Vector3.x axis * s) (Vector3.y axis * s) (Vector3.z axis * s)
     (cos halfAngle).

(** [multiplyQuaternions(a, b)]: the Hamilton product [a * b]. *)
Definition multiply (a b : t) : t :=
  mk (x a * w b + w a * x b + y a * z b - z a * y b)
     (y a * w b + w a * y b + z a * x b - x a * z b)
     (z a * w b + w a * z b + x a * y b - y a * x b)
     (w a * w b - x a * x b - y a * y b - z a * z b).

Definition lengthSq (q : t) : R :=
  x q * x q + y q * y q + z q * z q + w q * w q.

Definition length (q : t) : R := sqrt (lengthSq q).

(** [Vector3.applyQuaternion]: [v + w t + q.xyz × t] with
    [t = 2 (q.xyz × v)]. *)
Definition applyTo (v : Vector3.t) (q : t) : Vector3.t :=
  let vx := Vector3.x v in
  let vy := Vector3.y v in
  let vz := Vector3.z v in
  let tx := 2 * (y q * vz - z q * vy) in
  let ty := 2 * (z q * vx - x q * vz) in
  let tz := 2 * (x q * vy - y q * vx) in
  Vector3.mk (vx + w q * tx + y q * tz - z q * ty)
             (vy + w q * ty + z q * tx - x q * tz)
             (vz + w q * tz + x q * ty - y q * tx).

End Quaternion.

Module Euler.

Record t : Type := mk { x : R; y : R; z : R }.

Definition clamp (v lo hi : R) : R := Rmax lo (Rmin hi v).

(** [Math.atan2(b, a)] on the reals. *)
Definition atan2 (b a : R) : R :=
  if Rlt_dec 0 a then atan (b / a)
  else if Rlt_dec a 0 then
    (if Rlt_dec b 0 then atan (b / a) - PI else atan (b / a) + PI)
  else if Rlt_dec 0 b then PI / 2
  else if Rlt_dec b 0 then - (PI / 2)
  else 0.

(** [new THREE.Euler().setFromQuaternion(q, 'YXZ')]: the rotation matrix
    of [q], then the YXZ decomposition. *)
Definition setFromQuaternionYXZ (q : Quaternion.t) : t :=
  let qx := Quaternion.x q in
  let qy := Quaternion.y q in
  let qz := Quaternion.z q in
  let qw := Quaternion.w q in
  let x2 := qx + qx in
  let y2 := qy + qy in
  let z2 := qz + qz in
  let xx := qx * x2 in
  let xy := qx * y2 in
  let xz := qx * z2 in
  let yy := qy * y2 in
  let yz := qy * z2 in
  let zz := qz * z2 in
  let wx := qw * x2 in
  let wy := qw * y2 in
  let wz := qw * z2 in
  let m11 := 1 - (yy + zz) in
  let m21 := xy + wz in
  let m31 := xz - wy in
  let m22 := 1 - (xx + zz) in
  let m13 := xz + wy in
  let m23 := yz - wx in
  let m33 := 1 - (xx + yy) in
  if Rlt_dec (Rabs m23) 0.9999999
  then mk (asin (- clamp m23 (-1) 1)) (atan2 m13 m33) (atan2 m21 m22)
  else mk (asin (- clamp m23 (-1) 1)) (atan2 (- m31) m11) 0.

End Euler.

Module Object3D.

(** The part of a mesh the flight core reads and writes. *)
Record t : Type := mk { position : Vector3.t; quaternion : Quaternion.t }.

Definition xAxis : Vector3.t := Vector3.mk 1 0 0.
Definition yAxis : Vector3.t := Vector3.mk 0 1 0.
Definition zAxis : Vector3.t := Vector3.mk 0 0 1.

(** [_q1.setFromAxisAngle(axis, angle); this.quaternion.multiply(_q1)] *)
Definition rotateOnAxis (o : t) (axis : Vector3.t) (angle : R) : t :=
  mk (position o)
     (Quaternion.multiply (quaternion o)
        (Quaternion.setFromAxisAngle axis angle)).

Definition rotateX (o : t) (angle : R) : t := rotateOnAxis o xAxis angle.
Definition rotateY (o : t) (angle : R) : t := rotateOnAxis o yAxis angle.
Definition rotateZ (o : t) (angle : R) : t := rotateOnAxis o zAxis angle.

(** [Quaternion.setFromEuler] for the default order 'XYZ'. *)
Definition quaternionFromEuler (e : Euler.t) : Quaternion.t :=
  let c1 := cos (Euler.x e / 2) in
  let c2 := cos (Euler.y e / 2) in
  let c3 := cos (Euler.z e / 2) in
  let s1 := sin (Euler.x e / 2) in
  let s2 := sin (Euler.y e / 2) in
  let s3 := sin (Euler.z e / 2) in
  Quaternion.mk (s1 * c2 * c3 + c1 * s2 * s3)
                (c1 * s2 * c3 - s1 * c2 * s3)
                (c1 * c2 * s3 + s1 * s2 * c3)
                (c1 * c2 * c3 - s1 * s2 * s3).

(** [this.position.set(x, y, z)] *)
Definition setPosition (o : t) (x y z : R) : t :=
  mk (Vector3.mk x y z) (quaternion o).

(** [this.rotation.set(x, y, z)]: the quaternion follows the Euler angles. *)
Definition setRotation (o : t) (x y z : R) : t :=
  mk (position o) (quaternionFromEuler (Euler.mk x y z)).

End Object3D.

(** A collidable object answers a ray (origin, direction) with the distances
  of its hits, descendants included. *)
Definition Collidable : Type := Vector3.t -> Vector3.t -> list R.

Module Raycaster.

Fixpoint insertAsc (d : R) (l : list R) : list R :=
  match l with
  | [] => [d]
  | e :: l' => if Rle_dec d e then d :: l else e :: insertAsc d l'
  end.

(** [intersects.sort(ascSort)] *)
Definition sortAsc (l : list R) : list R := foldr insertAsc [] l.

(** [raycaster.set(origin, direction);
     raycaster.intersectObjects(objects, true)]: the hit distances of all
    objects, nearest first. *)
Definition intersectObjects (origin direction : Vector3.t)
    (objects : list Collidable) : list R :=
  sortAsc (flat_map (fun o => o origin direction) objects).

End Raycaster.

(** ** input.js / physics.js: the command record *)

(** The object [getState] returns and [update] consumes. *)
Module InputState.

Record t : Type := mk {
  thrust : R;
  yaw : R;
  pitch : R;
  roll : R;
  toggleMode : bool
}.

End InputState.

(** ** physics.js: [Drone] *)

Inductive Mode : Type := ACRO | LEVEL.

(** The three [Math.random()] results a crash consumes, in call order. *)
Record Draws : Type := mkDraws { draw1 : R; draw2 : R; draw3 : R }.

(** [Math.random()] returns a number in [0, 1). *)
Definition randomRange (r : R) : Prop := 0 <= r < 1.

Module Drone.

Record t : Type := mk {
  mesh : Object3D.t;
  velocity : Vector3.t;
  angularVelocity : Vector3.t;
  rotation : Euler.t;
  maxThrust : R;
  mass : R;
  drag : R;
  angularDrag : R;
  acroRate : R;
  angleRate : R;
  levelStrength : R;
  gravity : R;
  mode : Mode;
  collisionRadius : R
}.

(** [constructor(scene)]; [createDroneMesh] puts the group at (0, 2, 0). *)
Definition new : t :=
  mk (Object3D.mk (Vector3.mk 0 2 0) Quaternion.identity)
     Vector3.zero Vector3.zero (Euler.mk 0 0 0)
     30.0 0.5 0.5 6.0 8.0 0.78 15.0 (-9.81) ACRO 0.5.

Definition with_mesh (d : t) (m : Object3D.t) : t :=
  mk m (velocity d) (angularVelocity d) (rotation d) (maxThrust d) (mass d)
     (drag d) (angularDrag d) (acroRate d) (angleRate d) (levelStrength d)
     (gravity d) (mode d) (collisionRadius d).

Definition with_velocity (d : t) (v : Vector3.t) : t :=
  mk (mesh d) v (angularVelocity d) (rotation d) (maxThrust d) (mass d)
     (drag d) (angularDrag d) (acroRate d) (angleRate d) (levelStrength d)
     (gravity d) (mode d) (collisionRadius d).

Definition with_angularVelocity (d : t) (a : Vector3.t) : t :=
  mk (mesh d) (velocity d) a (rotation d) (maxThrust d) (mass d)
     (drag d) (angularDrag d) (acroRate d) (angleRate d) (levelStrength d)
     (gravity d) (mode d) (collisionRadius d).

(** [setMode(mode)] *)
Definition setMode (d : t) (m : Mode) : t :=
  mk (mesh d) (velocity d) (angularVelocity d) (rotation d) (maxThrust d)
     (mass d) (drag d) (angularDrag d) (acroRate d) (angleRate d)
     (levelStrength d) (gravity d) m (collisionRadius d).

(** *** [update], block by block *)

(** ACRO: the target the sticks ask for. *)
Definition targetAngularVel (d : t) (input : InputState.t) : Vector3.t :=
  Vector3.mk (InputState.pitch input * acroRate d)
             (InputState.yaw input * acroRate d)
             (InputState.roll input * acroRate d).

(** "1. Rotation Logic": the [if (this.mode === 'ACRO') ... else ...]. *)
Definition rotationLogic (d : t) (dt : R) (input : InputState.t) : t :=
  match mode d with
  | ACRO =>
      with_angularVelocity d
        (Vector3.lerp (angularVelocity d) (targetAngularVel d input)
                      (dt * 10))
  | LEVEL =>
      let currentEuler :=
        Euler.setFromQuaternionYXZ (Object3D.quaternion (mesh d)) in
      let targetPitch := InputState.pitch input * angleRate d in
      let targetRoll := InputState.roll input * angleRate d in
      let pitchError := targetPitch - Euler.x currentEuler in
      let rollError := targetRoll - Euler.z currentEuler in
      with_angularVelocity d
        (Vector3.mk (pitchError * levelStrength d)
                    (InputState.yaw input * acroRate d)
                    (rollError * levelStrength d))
  end.

(** "Apply rotation": [rotateX], [rotateY], [rotateZ] on the mesh. *)
Definition applyRotation (d : t) (dt : R) : t :=
  let m1 := Object3D.rotateX (mesh d) (Vector3.x (angularVelocity d) * dt) in
  let m2 := Object3D.rotateY m1 (Vector3.y (angularVelocity d) * dt) in
  let m3 := Object3D.rotateZ m2 (Vector3.z (angularVelocity d) * dt) in
  with_mesh d m3.

(** "2. Thrust": local up, rotated into the world, scaled. *)
Definition thrustForce (d : t) (input : InputState.t) : Vector3.t :=
  Vector3.multiplyScalar
    (Quaternion.applyTo (Vector3.mk 0 1 0) (Object3D.quaternion (mesh d)))
    (InputState.thrust input * maxThrust d).

(** "3. Linear Physics": gravity, thrust and drag. *)
Definition acceleration (d : t) (input : InputState.t) : Vector3.t :=
  let dragForce := Vector3.multiplyScalar (velocity d) (- drag d) in
  Vector3.add
    (Vector3.add (Vector3.mk 0 (gravity d) 0) (thrustForce d input))
    dragForce.

(** "Update velocity" *)
Definition updateVelocity (d : t) (dt : R) (input : InputState.t) : t :=
  with_velocity d
    (Vector3.add (velocity d)
       (Vector3.multiplyScalar (acceleration d input) dt)).

(** [Math.max(this.collisionRadius, this.velocity.length() * dt * 2)] *)
Definition lookAhead (d : t) (dt : R) : R :=
  Rmax (collisionRadius d) (Vector3.length (velocity d) * dt * 2).

(** The intersections of the ray cast along the velocity. *)
Definition intersects (d : t) (collidables : list Collidable) : list R :=
  Raycaster.intersectObjects (Object3D.position (mesh d))
    (Vector3.normalize (velocity d)) collidables.

(** "CRASH!": bounce back and tumble. *)
Definition crash (d : t) (rnd : Draws) : t :=
  with_angularVelocity
    (with_velocity d (Vector3.multiplyScalar (velocity d) (-0.5)))
    (Vector3.mk ((draw1 rnd - 0.5) * 10)
                ((draw2 rnd - 0.5) * 10)
                ((draw3 rnd - 0.5) * 10)).

(** "Check for collisions BEFORE moving" *)
Definition checkCollisions (d : t) (dt : R) (collidables : list Collidable)
    (rnd : Draws) : t :=
  match collidables with
  | [] => d
  | _ :: _ =>
      if Rlt_dec 0.1 (Vector3.length (velocity d)) then
        match intersects d collidables with
        | [] => d
        | distance :: _ =>
            if Rlt_dec distance (lookAhead d dt) then crash d rnd else d
        end
      else d
  end.

(** The condition under which [checkCollisions] takes the crash branch. *)
Definition crashes (d : t) (dt : R) (collidables : list Collidable) : Prop :=
  collidables <> [] /\
  0.1 < Vector3.length (velocity d) /\
  exists distance rest,
    intersects d collidables = distance :: rest /\
    distance < Rmax (collisionRadius d) (Vector3.length (velocity d) * dt * 2).

(** "Update position" *)
Definition updatePosition (d : t) (dt : R) : t :=
  with_mesh d
    (Object3D.mk
       (Vector3.add (Object3D.position (mesh d))
          (Vector3.multiplyScalar (velocity d) dt))
       (Object3D.quaternion (mesh d))).

(** "Ground collision (simple floor at y=0)" *)
Definition groundCollision (d : t) : t :=
  let p := Object3D.position (mesh d) in
  if Rlt_dec (Vector3.y p) 0.2 then
    with_velocity
      (with_mesh d
         (Object3D.mk (Vector3.mk (Vector3.x p) 0.2 (Vector3.z p))
                      (Object3D.quaternion (mesh d))))
      (Vector3.mk (Vector3.x (velocity d) * 0.8)
                  (Rmax 0 (Vector3.y (velocity d) * -0.5))
                  (Vector3.z (velocity d) * 0.8))
  else d.

(** The state when the collision check is reached. *)
Definition beforeCollisionCheck (d : t) (dt : R) (input : InputState.t) : t :=
  updateVelocity (applyRotation (rotationLogic d dt input) dt) dt input.

(** The state when the ground test is reached. *)
Definition beforeGroundCollision (d : t) (dt : R) (input : InputState.t)
    (collidables : list Collidable) (rnd : Draws) : t :=
  updatePosition
    (checkCollisions (beforeCollisionCheck d dt input) dt collidables rnd) dt.

(** [update(dt, input, collidables = [])] *)
Definition update (d : t) (dt : R) (input : InputState.t)
    (collidables : list Collidable) (rnd : Draws) : t :=
  groundCollision (beforeGroundCollision d dt input collidables rnd).

(** [update] as a call: the body has no [throw] and performs no check of its
    arguments, so every call completes normally. *)
Definition update_call (d : t) (dt : R) (input : InputState.t)
    (collidables : list Collidable) (rnd : Draws) : completion t :=
  Normal (update d dt input collidables rnd).

(** [updateCamera(camera)]: the camera pose after the call; the pose it had
    before is overwritten. *)
Definition updateCamera (d : t) : Object3D.t :=
  let offset :=
    Quaternion.applyTo (Vector3.mk 0 0.1 (-0.2))
      (Object3D.quaternion (mesh d)) in
  Object3D.mk (Vector3.add (Object3D.position (mesh d)) offset)
              (Object3D.quaternion (mesh d)).

End Drone.

(** Calls made on one drone, in order. *)
Inductive call : Type :=
| Update (dt : R) (input : InputState.t) (collidables : list Collidable)
    (rnd : Draws)
| SetMode (m : Mode).



(** ** input.js: [InputHandler] *)

(** A gamepad as [navigator.getGamepads()] reports it.  The four axes are
    those of the standard layout the source assumes; [buttons] holds the
    [pressed] flag of each button. *)
Record Gamepad : Type := mkGamepad {
  index : nat;
  axes0 : R;
  axes1 : R;
  axes2 : R;
  axes3 : R;
  buttons : list bool
}.

Module InputHandler.

Record t : Type := mk {
  keys : gmap string bool;
  gamepadIndex : option nat;
  state : InputState.t
}.

(** [constructor()] *)
Definition new : t := mk ∅ None (InputState.mk 0 0 0 0 false).

Definition with_toggleMode (h : t) (b : bool) : t :=
  mk (keys h) (gamepadIndex h)
     (InputState.mk (InputState.thrust (state h)) (InputState.yaw (state h))
        (InputState.pitch (state h)) (InputState.roll (state h)) b).

(** [onKeyDown(e)] with [e.code = code] *)
Definition onKeyDown (h : t) (code : string) : t :=
  let h' := mk (<[code := true]> (keys h)) (gamepadIndex h) (state h) in
  if decide (code = "KeyM") then with_toggleMode h' true else h'.

(** [onKeyUp(e)] with [e.code = code] *)
Definition onKeyUp (h : t) (code : string) : t :=
  let h' := mk (<[code := false]> (keys h)) (gamepadIndex h) (state h) in
  if decide (code = "KeyM") then with_toggleMode h' false else h'.

(** [onGamepadConnected(e)] with [e.gamepad = gp] *)
Definition onGamepadConnected (h : t) (gp : Gamepad) : t :=
  mk (keys h) (Some (index gp)) (state h).

(** [onGamepadDisconnected(e)] with [e.gamepad = gp] *)
Definition onGamepadDisconnected (h : t) (gp : Gamepad) : t :=
  if decide (gamepadIndex h = Some (index gp))
  then mk (keys h) None (state h)
  else h.

(** [this.keys[code]] as a condition: a code never seen is [undefined]. *)
Definition held (ks : gmap string bool) (code : string) : bool :=
  default false (ks !! code).

(** [if (Math.abs(v) < 0.1) v = 0] *)
Definition deadzone (v : R) : R := if Rlt_dec (Rabs v) 0.1 then 0 else v.

(** The body of [if (gp) { ... }]; [toggleMode0] is the local read from
    [this.state] before.  Reading [pressed] of a missing button 0 throws. *)
Definition gamepadInput (gp : Gamepad) (toggleMode0 : bool)
    : completion InputState.t :=
  let thrust := (- axes1 gp + 1) / 2 in
  let yaw := deadzone (- axes0 gp) in
  let pitch := deadzone (axes3 gp) in
  let roll := deadzone (axes2 gp) in
  let button0 : option bool := buttons gp !! 0%nat in
  match button0 with
  | None => Throw "TypeError"
  | Some pressed =>
      Normal (InputState.mk thrust yaw pitch roll
                (if pressed then true else toggleMode0))
  end.

(** The body of [if (this.gamepadIndex === null) { ... }], on the locals. *)
Definition keyboardInput (ks : gmap string bool) (locals : InputState.t)
    : InputState.t :=
  let thrust := 0 in
  let thrust := if held ks "Space" then 1.0 else thrust in
  let thrust := if held ks "ShiftLeft" then 0.0 else thrust in
  let pitch := if held ks "KeyW" then -1 else InputState.pitch locals in
  let pitch := if held ks "KeyS" then 1 else pitch in
  let roll := if held ks "KeyA" then -1 else InputState.roll locals in
  let roll := if held ks "KeyD" then 1 else roll in
  let yaw := if held ks "KeyQ" then 1 else InputState.yaw locals in
  let yaw := if held ks "KeyE" then -1 else yaw in
  InputState.mk thrust yaw pitch roll (InputState.toggleMode locals).

(** [getState()], given what [navigator.getGamepads()] returns during the
    call: the result (or the exception) and the handler afterwards. *)
Definition getState (gamepads : list (option Gamepad)) (h : t)
    : completion InputState.t * t :=
  let toggleMode0 := InputState.toggleMode (state h) in
  let h' := with_toggleMode h false in
  let locals := InputState.mk 0 0 0 0 toggleMode0 in
  let afterGamepad :=
    match gamepadIndex h with
    | Some i =>
        match mjoin (gamepads !! i) with
        | Some gp => gamepadInput gp toggleMode0
        | None => Normal locals
        end
    | None => Normal locals
    end in
  let result :=
    match afterGamepad with
    | Normal locals' =>
        Normal (match gamepadIndex h with
                | None => keyboardInput (keys h) locals'
                | Some _ => locals'
                end)
    | Throw msg => Throw msg
    end in
  (result, h').

(** What the keyboard alone asks for: the discrete mapping. *)
Definition discreteMapping (h : t) : InputState.t :=
  keyboardInput (keys h)
    (InputState.mk 0 0 0 0 (InputState.toggleMode (state h))).

End InputHandler.

(** ** audio.js: [AudioManager] *)

Module AudioManager.

(** The nodes [init] creates, each with the value its parameter was last
    set to or sent towards ([setTargetAtTime]'s target; the approach in time
    is not modelled). *)
Record Graph : Type := mkGraph {
  oscillatorFrequency : R;
  gain : R;
  filterFrequency : R
}.

(** [graph] is [None] while [context], [oscillator] and [gainNode] are
    null. *)
Record t : Type := mk {
  graph : option Graph;
  isInitialized : bool;
  isMuted : bool
}.

(** [constructor()] *)
Definition new : t := mk None false false.

(** [init()]: a new oscillator starts at the Web Audio default of 440 Hz. *)
Definition init (a : t) : t :=
  if isInitialized a then a
  else mk (Some (mkGraph 440 0 1000)) true (isMuted a).

(** [update(thrust)]; reading [this.context.state] of a null context
    throws. *)
Definition update (a : t) (thrust : R) : completion unit * t :=
  if negb (isInitialized a) || isMuted a then (Normal tt, a)
  else
    match graph a with
    | None => (Throw "TypeError", a)
    | Some _ =>
        let targetFreq := 100 + thrust * 700 in
        let targetGain := 0.1 + thrust * 0.2 in
        let targetFilter := 1000 + thrust * 4000 in
        (Normal tt,
         mk (Some (mkGraph targetFreq targetGain targetFilter))
            (isInitialized a) (isMuted a))
    end.

(** [stop()] *)
Definition stop (a : t) : t :=
  match graph a with
  | Some g =>
      mk (Some (mkGraph (oscillatorFrequency g) 0 (filterFrequency g)))
         (isInitialized a) (isMuted a)
  | None => a
  end.

(** [toggleMute()] *)
Definition toggleMute (a : t) : t :=
  let a' := mk (graph a) (isInitialized a) (negb (isMuted a)) in
  if isMuted a' then stop a' else a'.

(** Calls made on one audio manager, in order. *)
Inductive call : Type :=
| Init
| Update (thrust : R)
| Stop
| ToggleMute.

Definition step (a : t) (c : call) : t :=
  match c with
  | Init => init a
  | Update thrust => snd (update a thrust)
  | Stop => stop a
  | ToggleMute => toggleMute a
  end.

(** The audio manager after a sequence of calls. *)
Definition run (a : t) (calls : list call) : t := fold_left step calls a.

(** The nodes exist once [init] has run. *)
Definition wired (a : t) : Prop :=
  isInitialized a = true -> exists g, graph a = Some g.

(** A muted manager has its gain at (or heading to) zero. *)
Definition silentWhenMuted (a : t) : Prop :=
  isMuted a = true -> forall g, graph a = Some g -> gain g = 0.

End AudioManager.

(** ** environment.js: [EnvironmentManager] *)

Inductive MapType : Type := CITY | JUNGLE.

Inductive Geometry : Type :=
| PlaneGeometry (width height : R)
| BoxGeometry (width height depth : R)
| CylinderGeometry (radiusTop radiusBottom height : R)
| ConeGeometry (radius height : R).

(** A scene object: a mesh or a group, with its local position, Euler
    rotation and scale.  Materials and shadow flags are left out. *)
#[warnings="-register-all"]
Inductive SceneNode : Type :=
| Mesh (geometry : Geometry) (position : Vector3.t) (rotation : Euler.t)
    (scale : Vector3.t)
| Group (children : list SceneNode) (position : Vector3.t)
    (rotation : Euler.t) (scale : Vector3.t).

Definition nodePosition (n : SceneNode) : Vector3.t :=
  match n with
  | Mesh _ p _ _ => p
  | Group _ p _ _ => p
  end.

Definition nodeScale (n : SceneNode) : Vector3.t :=
  match n with
  | Mesh _ _ _ s => s
  | Group _ _ _ s => s
  end.

Module EnvironmentManager.

Record t : Type := mk {
  currentMap : option MapType;
  objects : list SceneNode
}.

(** [constructor(scene)] *)
Definition new : t := mk None [].

Definition noRotation : Euler.t := Euler.mk 0 0 0.
Definition unitScale : Vector3.t := Vector3.mk 1 1 1.

(** [clear()] *)
Definition clear (e : t) : t := mk (currentMap e) [].

(** The 1000 x 1000 ground plane of either map, laid flat. *)
Definition ground : SceneNode :=
  Mesh (PlaneGeometry 1000 1000) Vector3.zero
       (Euler.mk (- PI / 2) 0 0) unitScale.

(** The group [createGate(position, rotationY)] pushes. *)
Definition createGate (position : Vector3.t) (rotationY : R) : SceneNode :=
  let bar (w h d x y : R) :=
    Mesh (BoxGeometry w h d) (Vector3.mk x y 0) noRotation unitScale in
  Group [bar 8 0.5 0.5 0 4; bar 8 0.5 0.5 0 (-4);
         bar 0.5 8 0.5 (-4) 0; bar 0.5 8 0.5 4 0]
        position (Euler.mk 0 rotationY 0) unitScale.

(** The gate of round [i] of the loop in [addGates(count, spacing)]. *)
Definition gate (spacing : R) (i : nat) : SceneNode :=
  createGate (Vector3.mk 0 10 (-20 - INR i * spacing))
    (if Nat.even i then 0 else PI / 4).

(** [addGates(count, spacing)]: the objects pushed, in order. *)
Definition addGates (count : nat) (spacing : R) : list SceneNode :=
  map (gate spacing) (seq 0 count).

(** The building of round [i] of the loop in [loadCity()]; [random k] is the
    result of the [k]-th [Math.random()] call of the load, five per round:
    width, depth, height, x, z. *)
Definition building (random : nat -> R) (i : nat) : SceneNode :=
  let width := 10 + random (5 * i)%nat * 20 in
  let depth := 10 + random (5 * i + 1)%nat * 20 in
  let height := 20 + random (5 * i + 2)%nat * 80 in
  Mesh (BoxGeometry 1 1 1)
       (Vector3.mk ((random (5 * i + 3)%nat - 0.5) * 400)
                   (height / 2)
                   ((random (5 * i + 4)%nat - 0.5) * 400))
       noRotation
       (Vector3.mk width height depth).

(** The tree of round [i] of the loop in [loadJungle()], three draws per
    round: scale, x, z. *)
Definition tree (random : nat -> R) (i : nat) : SceneNode :=
  let trunk :=
    Mesh (CylinderGeometry 0.5 0.8 4) (Vector3.mk 0 2 0) noRotation
         unitScale in
  let leaves :=
    Mesh (ConeGeometry 4 10) (Vector3.mk 0 7 0) noRotation unitScale in
  let s := 1 + random (3 * i)%nat in
  Group [trunk; leaves]
        (Vector3.mk ((random (3 * i + 1)%nat - 0.5) * 400)
                    0
                    ((random (3 * i + 2)%nat - 0.5) * 400))
        noRotation
        (Vector3.mk s s s).

(** [loadCity()] *)
Definition loadCity (random : nat -> R) (e : t) : t :=
  let e := clear e in
  mk (Some CITY)
     (objects e ++ [ground] ++ map (building random) (seq 0 50)
      ++ addGates 5 50).

(** [loadJungle()] *)
Definition loadJungle (random : nat -> R) (e : t) : t :=
  let e := clear e in
  mk (Some JUNGLE)
     (objects e ++ [ground] ++ map (tree random) (seq 0 100)
      ++ addGates 5 30).

End EnvironmentManager.

(** ** main.js: [Game] *)

Module Game.

Section Raycasting.

(** three.js ray casting against a scene object and its descendants: the
    hit distances for a ray.  The game does not depend on how it is
    computed. *)
Variable raycast : SceneNode -> Collidable.

Record t : Type := mk {
  camera : Object3D.t;
  input : InputHandler.t;
  drone : Drone.t;
  envManager : EnvironmentManager.t;
  audio : AudioManager.t;
  isPlaying : bool;
  isPaused : bool
}.

(** [constructor()]: the first [animate()] it makes finds the game not
    playing. *)
Definition new : t :=
  mk (Object3D.mk Vector3.zero Quaternion.identity) InputHandler.new
     Drone.new EnvironmentManager.new AudioManager.new false false.

Definition with_drone (g : t) (d : Drone.t) : t :=
  mk (camera g) (input g) d (envManager g) (audio g) (isPlaying g)
     (isPaused g).

Definition with_input (g : t) (h : InputHandler.t) : t :=
  mk (camera g) h (drone g) (envManager g) (audio g) (isPlaying g)
     (isPaused g).

Definition with_audio (g : t) (a : AudioManager.t) : t :=
  mk (camera g) (input g) (drone g) (envManager g) a (isPlaying g)
     (isPaused g).

(** [toggleMode()] *)
Definition toggleMode (g : t) : t :=
  let newMode := match Drone.mode (drone g) with
                 | ACRO => LEVEL
                 | LEVEL => ACRO
                 end in
  with_drone g (Drone.setMode (drone g) newMode).

(** [toggleSound()] *)
Definition toggleSound (g : t) : t :=
  with_audio g (AudioManager.toggleMute (audio g)).

(** [resetDrone()] *)
Definition resetDrone (g : t) : t :=
  let d := drone g in
  let mesh1 := Object3D.setPosition (Drone.mesh d) 0 2 0 in
  let mesh2 := Object3D.setRotation mesh1 0 0 0 in
  with_drone g
    (Drone.mk mesh2 (Vector3.mk 0 0 0) (Vector3.mk 0 0 0) (Euler.mk 0 0 0)
       (Drone.maxThrust d) (Drone.mass d) (Drone.drag d)
       (Drone.angularDrag d) (Drone.acroRate d) (Drone.angleRate d)
       (Drone.levelStrength d) (Drone.gravity d) (Drone.mode d)
       (Drone.collisionRadius d)).

(** [startGame(mapType)]; [random] are the draws of the map load. *)
Definition startGame (g : t) (mapType : MapType) (random : nat -> R) : t :=
  let a := AudioManager.init (audio g) in
  let e := match mapType with
           | CITY => EnvironmentManager.loadCity random (envManager g)
           | JUNGLE => EnvironmentManager.loadJungle random (envManager g)
           end in
  resetDrone (mk (camera g) (input g) (drone g) e a true false).

(** [togglePause()] *)
Definition togglePause (g : t) : t :=
  let paused := negb (isPaused g) in
  mk (camera g) (input g) (drone g) (envManager g)
     (if paused then AudioManager.stop (audio g) else audio g)
     (isPlaying g) paused.

(** [restartGame()] *)
Definition restartGame (g : t) : t := togglePause (resetDrone g).

(** [quitToMenu()] *)
Definition quitToMenu (g : t) : t :=
  mk (camera g) (input g) (drone g) (envManager g)
     (AudioManager.stop (audio g)) false false.

(** A [keydown] on the window: the input handler's listener, then the
    game's Escape shortcut. *)
Definition onKeyDown (g : t) (code : string) : t :=
  let g1 := with_input g (InputHandler.onKeyDown (input g) code) in
  if bool_decide (code = "Escape") && isPlaying g1 then togglePause g1
  else g1.

(** [animate()]: one frame.  [dt] is what [clock.getDelta()] returns,
    [gamepads] what [navigator.getGamepads()] returns, [rnd] the draws of a
    crash.  The next frame is requested first, so a frame that throws leaves
    the state reached so far to the next one. *)
Definition animate (g : t) (gamepads : list (option Gamepad)) (dt : R)
    (rnd : Draws) : completion unit * t :=
  if negb (isPlaying g) then (Normal tt, g)
  else if isPaused g then (Normal tt, g)
  else
    let (polled, h) := InputHandler.getState gamepads (input g) in
    let g1 := with_input g h in
    match polled with
    | Throw msg => (Throw msg, g1)
    | Normal inputState =>
        let g2 :=
          if InputState.toggleMode inputState then toggleMode g1 else g1 in
        let d :=
          Drone.update (drone g2) dt inputState
            (map raycast (EnvironmentManager.objects (envManager g2))) rnd in
        let g3 := with_drone g2 d in
        let (played, a) :=
          AudioManager.update (audio g3) (InputState.thrust inputState) in
        let g4 := with_audio g3 a in
        match played with
        | Throw msg => (Throw msg, g4)
        | Normal _ =>
            (Normal tt,
             mk (Drone.updateCamera d) (input g4) (drone g4) (envManager g4)
                (audio g4) (isPlaying g4) (isPaused g4))
        end
    end.

(** What can happen to a game: frames, device events and button clicks. *)
Inductive event : Type :=
| Frame (gamepads : list (option Gamepad)) (dt : R) (rnd : Draws)
| KeyDown (code : string)
| KeyUp (code : string)
| GamepadConnected (gp : Gamepad)
| GamepadDisconnected (gp : Gamepad)
| ClickMap (mapType : MapType) (random : nat -> R)
| ClickResume
| ClickRestart
| ClickQuit
| ClickToggleMode
| ClickToggleSound.

Definition handle (g : t) (e : event) : t :=
  match e with
  | Frame gamepads dt rnd => snd (animate g gamepads dt rnd)
  | KeyDown code => onKeyDown g code
  | KeyUp code => with_input g (InputHandler.onKeyUp (input g) code)
  | GamepadConnected gp =>
      with_input g (InputHandler.onGamepadConnected (input g) gp)
  | GamepadDisconnected gp =>
      with_input g (InputHandler.onGamepadDisconnected (input g) gp)
  | ClickMap mapType random => startGame g mapType random
  | ClickResume => togglePause g
  | ClickRestart => restartGame g
  | ClickQuit => quitToMenu g
  | ClickToggleMode => toggleMode g
  | ClickToggleSound => toggleSound g
  end.

(** The game after a sequence of events. *)
Definition run (g : t) (events : list event) : t := fold_left handle events g.

End Raycasting.

End Game.

(** What every state of a game satisfies (see [game_stays_healthy]): the
    drone's orientation has norm 1, the drone is at or above the ground
    clearance, and the audio manager is wired and silent when muted. *)
Definition healthy (g : Game.t) : Prop :=
  Quaternion.length (Object3D.quaternion (Drone.mesh (Game.drone g))) = 1 /\
  0.2 <= Vector3.y (Object3D.position (Drone.mesh (Game.drone g))) /\
  AudioManager.wired (Game.audio g) /\
  AudioManager.silentWhenMuted (Game.audio g).

(** The other flight mode. *)
Definition otherMode (m : Mode) : Mode :=
  match m with
  | ACRO => LEVEL
  | LEVEL => ACRO
  end.

(** A scene nothing can hit, and a game started on the city map with every
    draw 0.5. *)
Definition openSky : SceneNode -> Collidable := fun _ _ _ => [].

Definition cityGame : Game.t :=
  Game.startGame Game.new CITY (fun _ => 0.5).

(** ** Attitudes *)

(** A drone whose orientation is a rotation about the vertical axis only:
    level, with any heading. *)
Definition upright (q : Quaternion.t) : Prop :=
  Quaternion.x q = 0 /\ Quaternion.z q = 0.

(** ** Repeated frames *)

(** [n] calls of [update] with the same timestep and input and nothing to
    hit. *)
Fixpoint fly (n : nat) (d : Drone.t) (dt : R) (input : InputState.t)
    (rnd : Draws) : Drone.t :=
  match n with
  | O => d
  | S n' => fly n' (Drone.update d dt input [] rnd) dt input rnd
  end.

(** ** physics.js over IEEE doubles *)

(** [Drone.update] once more, this time over binary64 numbers as JavaScript
    computes them, with rounding, overflow, infinities and NaN.  The
    arithmetic and its order are those of the source and of three.js.
    [Math.sin], [Math.cos], [Math.asin] and [Math.atan2] are given where
    ECMAScript fixes their result; for all other arguments the result is an
    approximation left to the engine, and the functions below return [None],
    which [update] passes on.  Of the drone's fields only those [update]
    reads or writes are kept. *)

Module Double.

Import PrimFloat.
Local Open Scope float_scope.
#[local] Set Warnings "-inexact-float".

Module Math.

(** [Math.max(a, b)]: NaN if either is NaN; +0 counts as larger than -0. *)
Definition max (a b : float) : float :=
  if is_nan a || is_nan b then nan
  else if a <? b then b
  else if b <? a then a
  else if is_zero a then a + b
  else a.

(** [Math.min(a, b)] *)
Definition min (a b : float) : float :=
  if is_nan a || is_nan b then nan
  else if a <? b then a
  else if b <? a then b
  else if is_zero a then - (- a + - b)
  else a.

(** [Math.sin(x)]: x itself for NaN and the zeros, NaN for the infinities. *)
Definition sin (x : float) : option float :=
  if is_nan x || is_zero x then Some x
  else if is_infinity x then Some nan
  else None.

(** [Math.cos(x)]: NaN for NaN and the infinities, 1 for the zeros. *)
Definition cos (x : float) : option float :=
  if is_nan x || is_infinity x then Some nan
  else if is_zero x then Some 1
  else None.

(** [Math.asin(x)]: x itself for NaN and the zeros, NaN outside [-1, 1]. *)
Definition asin (x : float) : option float :=
  if is_nan x || is_zero x then Some x
  else if 1 <? abs x then Some nan
  else None.

(** [Math.atan2(y, x)]: NaN if either is NaN, y itself for a zero y and a
    positive x. *)
Definition atan2 (y x : float) : option float :=
  if is_nan y || is_nan x then Some nan
  else if is_zero y && (0 <? x) then Some y
  else None.

End Math.

Module Vector3.

Record t : Type := mk { x : float; y : float; z : float }.

Definition lerp (a v : t) (alpha : float) : t :=
  mk (x a + (x v - x a) * alpha)
     (y a + (y v - y a) * alpha)
     (z a + (z v - z a) * alpha).

Definition add (a v : t) : t :=
  mk (x a + x v) (y a + y v) (z a + z v).

Definition multiplyScalar (a : t) (s : float) : t :=
  mk (x a * s) (y a * s) (z a * s).

Definition divideScalar (a : t) (s : float) : t :=
  multiplyScalar a (1 / s).

Definition length (a : t) : float :=
  sqrt (x a * x a + y a * y a + z a * z a).

(** [this.divideScalar(this.length() || 1)]: zero and NaN are falsy. *)
Definition normalize (a : t) : t :=
  let l := length a in
  divideScalar a (if is_zero l || is_nan l then 1 else l).

End Vector3.

Module Quaternion.

Record t : Type := mk { x : float; y : float; z : float; w : float }.

Definition identity : t := mk 0 0 0 1.

Definition setFromAxisAngle (axis : Vector3.t) (angle : float) : option t :=
  let halfAngle := angle / 2 in
  s ← Math.sin halfAngle;
  c ← Math.cos halfAngle;
  Some (mk (Vector3.x axis * s) (Vector3.y axis * s) (Vector3.z axis * s) c).

Definition multiply (a b : t) : t :=
  mk (x a * w b + w a * x b + y a * z b - z a * y b)
     (y a * w b + w a * y b + z a * x b - x a * z b)
     (z a * w b + w a * z b + x a * y b - y a * x b)
     (w a * w b - x a * x b - y a * y b - z a * z b).

(** [Vector3.applyQuaternion] *)
Definition applyTo (v : Vector3.t) (q : t) : Vector3.t :=
  let vx := Vector3.x v in
  let vy := Vector3.y v in
  let vz := Vector3.z v in
  let tx := 2 * (y q * vz - z q * vy) in
  let ty := 2 * (z q * vx - x q * vz) in
  let tz := 2 * (x q * vy - y q * vx) in
  Vector3.mk (vx + w q * tx + y q * tz - z q * ty)
             (vy + w q * ty + z q * tx - x q * tz)
             (vz + w q * tz + x q * ty - y q * tx).

(** [quaternion.multiply(_q1.setFromAxisAngle(axis, angle))] *)
Definition rotateOnAxis (q : t) (axis : Vector3.t) (angle : float)
    : option t :=
  q1 ← setFromAxisAngle axis angle;
  Some (multiply q q1).

(** The pitch (x) and roll (z) angles of
    [new THREE.Euler().setFromQuaternion(q, 'YXZ')]; the yaw angle, which
    [update] does not read, is left out. *)
Definition eulerYXZ (q : t) : option (float * float) :=
  let x2 := x q + x q in
  let y2 := y q + y q in
  let z2 := z q + z q in
  let xx := x q * x2 in
  let xy := x q * y2 in
  let yz := y q * z2 in
  let zz := z q * z2 in
  let wx := w q * x2 in
  let wz := w q * z2 in
  let m21 := xy + wz in
  let m22 := 1 - (xx + zz) in
  let m23 := yz - wx in
  ex ← Math.asin (- Math.max (-1) (Math.min 1 m23));
  if abs m23 <? 0.9999999
  then ez ← Math.atan2 m21 m22; Some (ex, ez)
  else Some (ex, 0).

End Quaternion.

Definition Collidable : Type := Vector3.t -> Vector3.t -> list float.

Fixpoint insertAsc (d : float) (l : list float) : list float :=
  match l with
  | [] => [d]
  | e :: l' => if d <=? e then d :: l else e :: insertAsc d l'
  end.

(** [raycaster.intersectObjects(objects, true)]: hit distances, nearest
    first. *)
Definition intersectObjects (origin direction : Vector3.t)
    (objects : list Collidable) : list float :=
  foldr insertAsc [] (flat_map (fun o => o origin direction) objects).

(** The sticks, as [update] reads them. *)
Record Input : Type := mkInput {
  thrust : float;
  yaw : float;
  pitch : float;
  roll : float
}.

Module Drone.

Record t : Type := mk {
  position : Vector3.t;
  quaternion : Quaternion.t;
  velocity : Vector3.t;
  angularVelocity : Vector3.t;
  maxThrust : float;
  drag : float;
  acroRate : float;
  angleRate : float;
  levelStrength : float;
  gravity : float;
  mode : Mode;
  collisionRadius : float
}.

(** [constructor(scene)] *)
Definition new : t :=
  mk (Vector3.mk 0 2 0) Quaternion.identity (Vector3.mk 0 0 0)
     (Vector3.mk 0 0 0) 30.0 0.5 8.0 0.78 15.0 (-9.81) ACRO 0.5.

(** "1. Rotation Logic": the angular velocity after the block. *)
Definition rotationLogic (d : t) (dt : float) (input : Input)
    : option Vector3.t :=
  match mode d with
  | ACRO =>
      let targetAngularVel :=
        Vector3.mk (pitch input * acroRate d) (yaw input * acroRate d)
                   (roll input * acroRate d) in
      Some (Vector3.lerp (angularVelocity d) targetAngularVel (dt * 10))
  | LEVEL =>
      '(ex, ez) ← Quaternion.eulerYXZ (quaternion d);
      let targetPitch := pitch input * angleRate d in
      let targetRoll := roll input * angleRate d in
      let pitchError := targetPitch - ex in
      let rollError := targetRoll - ez in
      Some (Vector3.mk (pitchError * levelStrength d)
                       (yaw input * acroRate d)
                       (rollError * levelStrength d))
  end.

(** "CRASH!" *)
Definition crash (d : t) (r1 r2 r3 : float) : t :=
  mk (position d) (quaternion d)
     (Vector3.multiplyScalar (velocity d) (-0.5))
     (Vector3.mk ((r1 - 0.5) * 10) ((r2 - 0.5) * 10) ((r3 - 0.5) * 10))
     (maxThrust d) (drag d) (acroRate d) (angleRate d) (levelStrength d)
     (gravity d) (mode d) (collisionRadius d).

(** "Check for collisions BEFORE moving" *)
Definition checkCollisions (d : t) (dt : float)
    (collidables : list Collidable) (r1 r2 r3 : float) : t :=
  match collidables with
  | [] => d
  | _ :: _ =>
      if 0.1 <? Vector3.length (velocity d) then
        let direction := Vector3.normalize (velocity d) in
        let lookAhead :=
          Math.max (collisionRadius d)
            (Vector3.length (velocity d) * dt * 2) in
        match intersectObjects (position d) direction collidables with
        | [] => d
        | distance :: _ =>
            if distance <? lookAhead then crash d r1 r2 r3 else d
        end
      else d
  end.

(** "Ground collision (simple floor at y=0)" *)
Definition groundCollision (d : t) : t :=
  let p := position d in
  let v := velocity d in
  if Vector3.y p <? 0.2 then
    mk (Vector3.mk (Vector3.x p) 0.2 (Vector3.z p)) (quaternion d)
       (Vector3.mk (Vector3.x v * 0.8)
                   (Math.max 0 (Vector3.y v * -0.5))
                   (Vector3.z v * 0.8))
       (angularVelocity d) (maxThrust d) (drag d) (acroRate d) (angleRate d)
       (levelStrength d) (gravity d) (mode d) (collisionRadius d)
  else d.

(** [update(dt, input, collidables)]; [r1], [r2], [r3] are the
    [Math.random()] results a crash consumes. *)
Definition update (d : t) (dt : float) (input : Input)
    (collidables : list Collidable) (r1 r2 r3 : float) : option t :=
  w ← rotationLogic d dt input;
  q1 ← Quaternion.rotateOnAxis (quaternion d) (Vector3.mk 1 0 0)
         (Vector3.x w * dt);
  q2 ← Quaternion.rotateOnAxis q1 (Vector3.mk 0 1 0) (Vector3.y w * dt);
  q3 ← Quaternion.rotateOnAxis q2 (Vector3.mk 0 0 1) (Vector3.z w * dt);
  let thrustForce :=
    Vector3.multiplyScalar (Quaternion.applyTo (Vector3.mk 0 1 0) q3)
      (thrust input * maxThrust d) in
  let dragForce := Vector3.multiplyScalar (velocity d) (- drag d) in
  let acceleration :=
    Vector3.add (Vector3.add (Vector3.mk 0 (gravity d) 0) thrustForce)
      dragForce in
  let v := Vector3.add (velocity d) (Vector3.multiplyScalar acceleration dt) in
  let d1 :=
    mk (position d) q3 v w (maxThrust d) (drag d) (acroRate d) (angleRate d)
       (levelStrength d) (gravity d) (mode d) (collisionRadius d) in
  let d2 := checkCollisions d1 dt collidables r1 r2 r3 in
  let d3 :=
    mk (Vector3.add (position d2) (Vector3.multiplyScalar (velocity d2) dt))
       (quaternion d2) (velocity d2) (angularVelocity d2) (maxThrust d2)
       (drag d2) (acroRate d2) (angleRate d2) (levelStrength d2) (gravity d2)
       (mode d2) (collisionRadius d2) in
  Some (groundCollision d3).

End Drone.

(** Centred sticks, no throttle. *)
Definition sticksCentred : Input := mkInput 0 0 0 0.




(** [position.y < 0.2], the ground test of [update]. *)
Definition belowGround (d : Drone.t) : bool :=
  Vector3.y (Drone.position d) <? 0.2.


End Double.

(** ** Sample data *)

(** All sticks centred, no throttle. *)
Definition sticksCentred : InputState.t := InputState.mk 0 0 0 0 false.

(** Three draws of 0.5: a crash with these leaves no spin. *)
Definition evenDraws : Draws := mkDraws 0.5 0.5 0.5.

(** An obstacle every ray hits once, at the given distance. *)
Definition wallAt (distance : R) : Collidable := fun _ _ => [distance].

(** [v] lies between [a] and [b], whichever is larger. *)
Definition between (a b v : R) : Prop := Rmin a b <= v <= Rmax a b.

(** Componentwise [between]. *)
Definition between3 (a b v : Vector3.t) : Prop :=
  between (Vector3.x a) (Vector3.x b) (Vector3.x v) /\
  between (Vector3.y a) (Vector3.y b) (Vector3.y v) /\
  between (Vector3.z a) (Vector3.z b) (Vector3.z v).

(** A full pitch deflection, a full yaw deflection. *)
Definition fullPitch : InputState.t := InputState.mk 0 0 1 0 false.
Definition fullYaw : InputState.t := InputState.mk 0 1 0 0 false.

(** The toggle flag a poll hands to the game loop; a poll that throws hands
    over nothing. *)
Definition toggleRequested (r : completion InputState.t) : bool :=
  match r with
  | Normal s => InputState.toggleMode s
  | Throw _ => false
  end.

(** The property names a plain object inherits from [Object.prototype]:
    [this.keys] answers for them even when no key event set them, and an
    assignment to [__proto__] does not store a flag.  No [KeyboardEvent.code]
    is among them. *)
Definition objectPrototypeNames : list string :=
  ["__proto__"; "constructor"; "hasOwnProperty"; "isPrototypeOf";
   "propertyIsEnumerable"; "toLocaleString"; "toString"; "valueOf";
   "__defineGetter__"; "__defineSetter__"; "__lookupGetter__";
   "__lookupSetter__"].

(** The four axes a poll hands over, if it returns. *)
Definition axesOf (r : completion InputState.t) : option (R * R * R * R) :=
  match r with
  | Normal s =>
      Some (InputState.thrust s, InputState.yaw s, InputState.pitch s,
            InputState.roll s)
  | Throw _ => None
  end.

(** A pad at rest with button 0 held down. *)
Definition padButtonHeld : Gamepad := mkGamepad 0 0 0 0 0 [true].

(** * Properties *)

(** Unfold the vector operations and finish by linear arithmetic. *)
Ltac vector_arith :=
  unfold Vector3.add, Vector3.multiplyScalar, Vector3.zero;
  cbn [Vector3.x Vector3.y Vector3.z];
  try f_equal; lra.

(** ** Quaternions: rotations keep the norm *)

Lemma lengthSq_multiply (a b : Quaternion.t) :
  Quaternion.lengthSq (Quaternion.multiply a b)
  = Quaternion.lengthSq a * Quaternion.lengthSq b.
Proof. unfold Quaternion.lengthSq, Quaternion.multiply; cbn; ring. Qed.

Lemma sin_cos_square (a : R) : sin a * sin a + cos a * cos a = 1.
Proof. exact (sin2_cos2 a). Qed.

(** A rotation about a unit axis is a unit quaternion. *)
Lemma lengthSq_setFromAxisAngle (axis : Vector3.t) (angle : R) :
  Vector3.x axis * Vector3.x axis + Vector3.y axis * Vector3.y axis
  + Vector3.z axis * Vector3.z axis = 1 ->
  Quaternion.lengthSq (Quaternion.setFromAxisAngle axis angle) = 1.
Proof.
  intros Hunit.
  unfold Quaternion.lengthSq, Quaternion.setFromAxisAngle; cbn.
  pose proof (sin_cos_square (angle / 2)) as Htrig.
  set (s := sin (angle / 2)) in *; set (c := cos (angle / 2)) in *.
  transitivity
    ((Vector3.x axis * Vector3.x axis + Vector3.y axis * Vector3.y axis
      + Vector3.z axis * Vector3.z axis) * (s * s) + c * c); [ring|].
  rewrite Hunit; lra.
Qed.

Lemma lengthSq_rotateOnAxis (o : Object3D.t) (axis : Vector3.t) (angle : R) :
  Vector3.x axis * Vector3.x axis + Vector3.y axis * Vector3.y axis
  + Vector3.z axis * Vector3.z axis = 1 ->
  Quaternion.lengthSq (Object3D.quaternion (Object3D.rotateOnAxis o axis angle))
  = Quaternion.lengthSq (Object3D.quaternion o).
Proof.
  intros Hunit; unfold Object3D.rotateOnAxis; cbn [Object3D.quaternion].
  rewrite lengthSq_multiply, lengthSq_setFromAxisAngle by exact Hunit.
  ring.
Qed.

Lemma lengthSq_rotateXYZ (o : Object3D.t) (a b c : R) :
  Quaternion.lengthSq
    (Object3D.quaternion
       (Object3D.rotateZ (Object3D.rotateY (Object3D.rotateX o a) b) c))
  = Quaternion.lengthSq (Object3D.quaternion o).
Proof.
  unfold Object3D.rotateZ, Object3D.rotateY, Object3D.rotateX.
  rewrite !lengthSq_rotateOnAxis; [reflexivity|..]; cbn; ring.
Qed.

(** ** What each block of [update] leaves alone *)

Section Frames.

Import Drone.

Variables (dt : R) (input : InputState.t).
Variables (collidables : list Collidable) (rnd : Draws).

Lemma rotationLogic_mesh (d : Drone.t) :
  mesh (rotationLogic d dt input) = mesh d.
Proof. unfold rotationLogic; destruct (mode d); reflexivity. Qed.

Lemma checkCollisions_mesh (d : Drone.t) :
  mesh (checkCollisions d dt collidables rnd) = mesh d.
Proof.
  unfold checkCollisions.
  destruct collidables; [reflexivity|].
  destruct (Rlt_dec _ _); [|reflexivity].
  destruct (intersects _ _); [reflexivity|].
  destruct (Rlt_dec _ _); reflexivity.
Qed.

Lemma groundCollision_quaternion (d : Drone.t) :
  Object3D.quaternion (mesh (groundCollision d))
  = Object3D.quaternion (mesh d).
Proof. unfold groundCollision; destruct (Rlt_dec _ _); reflexivity. Qed.

Lemma groundCollision_angularVelocity (d : Drone.t) :
  angularVelocity (groundCollision d) = angularVelocity d.
Proof. unfold groundCollision; destruct (Rlt_dec _ _); reflexivity. Qed.

Lemma groundCollision_above (d : Drone.t) :
  0.2 <= Vector3.y (Object3D.position (mesh (groundCollision d))).
Proof.
  unfold groundCollision; destruct (Rlt_dec _ _) as [Hlow|Hhigh]; cbn; lra.
Qed.

Lemma update_angularVelocity (d : Drone.t) :
  angularVelocity (update d dt input collidables rnd)
  = angularVelocity
      (checkCollisions (beforeCollisionCheck d dt input) dt collidables rnd).
Proof.
  unfold update; rewrite groundCollision_angularVelocity; reflexivity.
Qed.

Lemma update_quaternion_lengthSq (d : Drone.t) :
  Quaternion.lengthSq
    (Object3D.quaternion (mesh (update d dt input collidables rnd)))
  = Quaternion.lengthSq (Object3D.quaternion (mesh d)).
Proof.
  unfold update; rewrite groundCollision_quaternion.
  unfold beforeGroundCollision, updatePosition;
    cbn [mesh with_mesh Object3D.quaternion].
  rewrite checkCollisions_mesh.
  unfold beforeCollisionCheck, updateVelocity, applyRotation;
    cbn [mesh with_mesh with_velocity].
  rewrite lengthSq_rotateXYZ, rotationLogic_mesh; reflexivity.
Qed.

End Frames.

(** ** The crash branch *)

Lemma checkCollisions_crash (d : Drone.t) (dt : R)
    (collidables : list Collidable) (rnd : Draws) :
  Drone.crashes d dt collidables ->
  Drone.checkCollisions d dt collidables rnd = Drone.crash d rnd.
Proof.
  intros (Hne & Hfast & distance & rest & Hhit & Hnear).
  unfold Drone.checkCollisions.
  destruct collidables as [|c cs]; [contradiction|].
  destruct (Rlt_dec _ _) as [_|Hslow]; [|contradiction].
  rewrite Hhit.
  unfold Drone.lookAhead.
  destruct (Rlt_dec _ _) as [_|Hfar]; [reflexivity|contradiction].
Qed.

Lemma checkCollisions_no_crash (d : Drone.t) (dt : R)
    (collidables : list Collidable) (rnd : Draws) :
  ~ Drone.crashes d dt collidables ->
  Drone.checkCollisions d dt collidables rnd = d.
Proof.
  intros Hno.
  unfold Drone.checkCollisions.
  destruct collidables as [|c cs] eqn:Hcs; [reflexivity|].
  destruct (Rlt_dec _ _) as [Hfast|_]; [|reflexivity].
  destruct (Drone.intersects d (c :: cs)) as [|distance rest] eqn:Hhit;
    [reflexivity|].
  destruct (Rlt_dec _ _) as [Hnear|_]; [|reflexivity].
  exfalso; apply Hno.
  split; [discriminate|].
  split; [exact Hfast|].
  exists distance, rest; split; [exact Hhit|exact Hnear].
Qed.

Lemma checkCollisions_empty (d : Drone.t) (dt : R) (rnd : Draws) :
  Drone.checkCollisions d dt [] rnd = d.
Proof. reflexivity. Qed.

(** C3: when the collision branch of [update] is taken (collidables
    non-empty, speed above 0.1, nearest hit closer than
    max(collisionRadius, speed * dt * 2)), each component of the velocity
    leaving the branch is -0.5 times that component of the velocity entering
    it, and for every outcome of the three random draws each component of
    the reseeded angular velocity lies in [-5, 5]; that angular velocity is
    the one [update] returns. *)
Theorem collision_reflects_and_reseeds (d : Drone.t) (dt : R)
    (input : InputState.t) (collidables : list Collidable) (rnd : Draws)
    (distance : R) (rest : list R) :
  let pre := Drone.beforeCollisionCheck d dt input in
  let post := Drone.checkCollisions pre dt collidables rnd in
  collidables <> [] ->
  0.1 < Vector3.length (Drone.velocity pre) ->
  Drone.intersects pre collidables = distance :: rest ->
  distance < Rmax (Drone.collisionRadius pre)
                  (Vector3.length (Drone.velocity pre) * dt * 2) ->
  randomRange (draw1 rnd) ->
  randomRange (draw2 rnd) ->
  randomRange (draw3 rnd) ->
  Vector3.x (Drone.velocity post) = -0.5 * Vector3.x (Drone.velocity pre) /\
  Vector3.y (Drone.velocity post) = -0.5 * Vector3.y (Drone.velocity pre) /\
  Vector3.z (Drone.velocity post) = -0.5 * Vector3.z (Drone.velocity pre) /\
  -5 <= Vector3.x (Drone.angularVelocity post) <= 5 /\
  -5 <= Vector3.y (Drone.angularVelocity post) <= 5 /\
  -5 <= Vector3.z (Drone.angularVelocity post) <= 5 /\
  Drone.angularVelocity (Drone.update d dt input collidables rnd)
  = Drone.angularVelocity post.
Proof.
  intros pre post Hne Hfast Hhit Hnear H1 H2 H3.
  assert (Hpost : post = Drone.crash pre rnd).
  { apply checkCollisions_crash.
    split; [exact Hne|]. split; [exact Hfast|].
    exists distance, rest; split; assumption. }
  unfold randomRange in *.
  rewrite update_angularVelocity; fold pre; fold post.
  rewrite Hpost; cbn.
  repeat split; lra.
Qed.

(** With the sticks centred a new drone is in free fall. *)
Lemma new_free_fall (dt : R) :
  Drone.velocity (Drone.beforeCollisionCheck Drone.new dt sticksCentred)
  = Vector3.mk 0 (-9.81 * dt) 0.
Proof.
  unfold Drone.beforeCollisionCheck, Drone.updateVelocity, Drone.acceleration,
    Drone.thrustForce, sticksCentred; cbn.
  vector_arith.
Qed.

Lemma speed_at_least_y (v : Vector3.t) (b : R) :
  0 <= b -> b < - Vector3.y v -> b < Vector3.length v.
Proof.
  intros Hb Hy.
  unfold Vector3.length.
  rewrite <- (sqrt_square b) by exact Hb.
  apply sqrt_lt_1_alt.
  split; [nra|].
  pose proof (Rle_0_sqr (Vector3.x v)) as Hx; unfold Rsqr in Hx.
  pose proof (Rle_0_sqr (Vector3.z v)) as Hz; unfold Rsqr in Hz.
  nra.
Qed.

Lemma collision_reflects_and_reseeds_witness :
  let pre := Drone.beforeCollisionCheck Drone.new 1 sticksCentred in
  let post :=
    Drone.checkCollisions pre 1 [wallAt 0.3] (mkDraws 0 0.5 0.999) in
  Drone.velocity pre = Vector3.mk 0 (-9.81) 0 /\
  Drone.velocity post = Vector3.mk 0 4.905 0 /\
  Drone.angularVelocity post = Vector3.mk (-5) 0 4.99 /\
  Drone.angularVelocity
    (Drone.update Drone.new 1 sticksCentred [wallAt 0.3]
       (mkDraws 0 0.5 0.999))
  = Vector3.mk (-5) 0 4.99.
Proof.
  cbv zeta.
  assert (Hpre :
    Drone.velocity (Drone.beforeCollisionCheck Drone.new 1 sticksCentred)
    = Vector3.mk 0 (-9.81 * 1) 0)
    by apply new_free_fall.
  assert (Hfast :
    0.1 < Vector3.length
            (Drone.velocity
               (Drone.beforeCollisionCheck Drone.new 1 sticksCentred))).
  { apply speed_at_least_y; [lra|]. rewrite Hpre; cbn; lra. }
  assert (Hnear :
    0.3 < Rmax (Drone.collisionRadius
                  (Drone.beforeCollisionCheck Drone.new 1 sticksCentred))
               (Vector3.length
                  (Drone.velocity
                     (Drone.beforeCollisionCheck Drone.new 1 sticksCentred))
                * 1 * 2)).
  { eapply Rlt_le_trans; [|apply Rmax_l]. cbn; lra. }
  destruct (collision_reflects_and_reseeds Drone.new 1 sticksCentred
              [wallAt 0.3] (mkDraws 0 0.5 0.999) 0.3 [])
    as (Hx & Hy & Hz & _ & _ & _ & Hupdate);
    [discriminate|exact Hfast|reflexivity|exact Hnear
    |unfold randomRange; cbn; lra|unfold randomRange; cbn; lra
    |unfold randomRange; cbn; lra|].
  rewrite Hpre in Hx, Hy, Hz;
    cbn [Vector3.x Vector3.y Vector3.z] in Hx, Hy, Hz.
  assert (Hspin :
    Drone.angularVelocity
      (Drone.checkCollisions
         (Drone.beforeCollisionCheck Drone.new 1 sticksCentred) 1
         [wallAt 0.3] (mkDraws 0 0.5 0.999))
    = Vector3.mk (-5) 0 4.99).
  { rewrite checkCollisions_crash.
    - unfold Drone.crash; cbn; f_equal; lra.
    - split; [discriminate|].
      split; [exact Hfast|].
      exists 0.3, []; split; [reflexivity|exact Hnear]. }
  split; [rewrite Hpre; f_equal; lra|].
  split.
  - destruct (Drone.velocity
                (Drone.checkCollisions
                   (Drone.beforeCollisionCheck Drone.new 1 sticksCentred) 1
                   [wallAt 0.3] (mkDraws 0 0.5 0.999)));
      cbn [Vector3.x Vector3.y Vector3.z] in Hx, Hy, Hz; f_equal; lra.
  - split; [exact Hspin|].
    rewrite Hupdate; exact Hspin.
Defined.

Lemma beforeCollisionCheck_position (d : Drone.t) (dt : R)
    (input : InputState.t) :
  Object3D.position (Drone.mesh (Drone.beforeCollisionCheck d dt input))
  = Object3D.position (Drone.mesh d).
Proof.
  unfold Drone.beforeCollisionCheck, Drone.updateVelocity,
    Drone.applyRotation; cbn.
  rewrite rotationLogic_mesh; reflexivity.
Qed.

Lemma beforeGroundCollision_position (d : Drone.t) (dt : R)
    (input : InputState.t) (collidables : list Collidable) (rnd : Draws) :
  Object3D.position
    (Drone.mesh (Drone.beforeGroundCollision d dt input collidables rnd))
  = Vector3.add (Object3D.position (Drone.mesh d))
      (Vector3.multiplyScalar
         (Drone.velocity
            (Drone.checkCollisions (Drone.beforeCollisionCheck d dt input)
               dt collidables rnd))
         dt).
Proof.
  unfold Drone.beforeGroundCollision, Drone.updatePosition; cbn.
  rewrite checkCollisions_mesh, beforeCollisionCheck_position; reflexivity.
Qed.


(** ** Invariants over call sequences *)

Lemma update_above_ground (d : Drone.t) (dt : R) (input : InputState.t)
    (collidables : list Collidable) (rnd : Draws) :
  0.2 <= Vector3.y
           (Object3D.position
              (Drone.mesh (Drone.update d dt input collidables rnd))).
Proof. unfold Drone.update; apply groundCollision_above. Qed.





(** What the doubles do keep: the last block of [update] is
    [if (position.y < 0.2) position.y = 0.2], so on return the test
    position.y < 0.2 is false: the height is a number at or above 0.2, or
    NaN. *)
Lemma ground_test_false_after_update (d d' : Double.Drone.t)
    (dt : PrimFloat.float) (input : Double.Input)
    (collidables : list Double.Collidable) (r1 r2 r3 : PrimFloat.float) :
  Double.Drone.update d dt input collidables r1 r2 r3 = Some d' ->
  Double.belowGround d' = false.
Proof.
  unfold Double.Drone.update; intros Hupdate.
  destruct (Double.Drone.rotationLogic d dt input) as [w|];
    [cbn [mbind option_bind] in Hupdate|discriminate].
  destruct (Double.Quaternion.rotateOnAxis _ _ _) as [q1|];
    [cbn [mbind option_bind] in Hupdate|discriminate].
  destruct (Double.Quaternion.rotateOnAxis _ _ _) as [q2|];
    [cbn [mbind option_bind] in Hupdate|discriminate].
  destruct (Double.Quaternion.rotateOnAxis _ _ _) as [q3|];
    [cbn [mbind option_bind] in Hupdate|discriminate].
  injection Hupdate as <-.
  unfold Double.belowGround, Double.Drone.groundCollision; cbv zeta.
  match goal with
  | |- context [if ?test then _ else _] => destruct test eqn:Htest
  end.
  - reflexivity.
  - exact Htest.
Qed.

Lemma length_one_iff (q : Quaternion.t) :
  Quaternion.length q = 1 <-> Quaternion.lengthSq q = 1.
Proof.
  unfold Quaternion.length; split; intros H.
  - assert (Hnn : 0 <= Quaternion.lengthSq q).
    { unfold Quaternion.lengthSq.
      pose proof (Rle_0_sqr (Quaternion.x q)) as Hx; unfold Rsqr in Hx.
      pose proof (Rle_0_sqr (Quaternion.y q)) as Hy; unfold Rsqr in Hy.
      pose proof (Rle_0_sqr (Quaternion.z q)) as Hz; unfold Rsqr in Hz.
      pose proof (Rle_0_sqr (Quaternion.w q)) as Hw; unfold Rsqr in Hw.
      lra. }
    rewrite <- (sqrt_sqrt _ Hnn), H; lra.
  - rewrite H; exact sqrt_1.
Qed.

Lemma update_quaternion_length (d : Drone.t) (dt : R) (input : InputState.t)
    (collidables : list Collidable) (rnd : Draws) :
  Quaternion.length
    (Object3D.quaternion
       (Drone.mesh (Drone.update d dt input collidables rnd)))
  = Quaternion.length (Object3D.quaternion (Drone.mesh d)).
Proof.
  unfold Quaternion.length; rewrite update_quaternion_lengthSq; reflexivity.
Qed.



(** ** The ground bounce *)

(** C10: when the ground clamp fires (position.y < 0.2 after the position
    step), the vertical velocity [update] returns is non-negative: a negative
    vertical velocity becomes -0.5 times its value, a non-negative one becomes
    exactly 0; the horizontal components are scaled by 0.8. *)
Theorem ground_clamp_velocity (d : Drone.t) (dt : R) (input : InputState.t)
    (collidables : list Collidable) (rnd : Draws) :
  let pre := Drone.beforeGroundCollision d dt input collidables rnd in
  let post := Drone.update d dt input collidables rnd in
  Vector3.y (Object3D.position (Drone.mesh pre)) < 0.2 ->
  0 <= Vector3.y (Drone.velocity post) /\
  (Vector3.y (Drone.velocity pre) < 0 ->
   Vector3.y (Drone.velocity post) = -0.5 * Vector3.y (Drone.velocity pre)) /\
  (0 <= Vector3.y (Drone.velocity pre) ->
   Vector3.y (Drone.velocity post) = 0) /\
  Vector3.x (Drone.velocity post) = 0.8 * Vector3.x (Drone.velocity pre) /\
  Vector3.z (Drone.velocity post) = 0.8 * Vector3.z (Drone.velocity pre).
Proof.
  intros pre post Hlow.
  unfold post, Drone.update; fold pre.
  unfold Drone.groundCollision.
  destruct (Rlt_dec _ _) as [_|Hhigh]; [|contradiction].
  cbn.
  split; [apply Rmax_l|].
  split; [intros Hdown; rewrite Rmax_right; lra|].
  split; [intros Hup; rewrite Rmax_left; lra|].
  split; lra.
Qed.

Lemma ground_clamp_velocity_witness :
  let pre :=
    Drone.beforeGroundCollision Drone.new 1 sticksCentred [] evenDraws in
  let post := Drone.update Drone.new 1 sticksCentred [] evenDraws in
  Vector3.y (Object3D.position (Drone.mesh pre)) < 0.2 /\
  Vector3.y (Drone.velocity pre) = -9.81 /\
  Vector3.y (Drone.velocity post) = 4.905 /\
  Vector3.x (Drone.velocity post) = 0.8 * Vector3.x (Drone.velocity pre) /\
  Vector3.z (Drone.velocity post) = 0.8 * Vector3.z (Drone.velocity pre).
Proof.
  intros pre post.
  assert (Hlow : Vector3.y (Object3D.position (Drone.mesh pre)) < 0.2).
  { unfold pre.
    rewrite beforeGroundCollision_position, checkCollisions_empty,
      new_free_fall.
    cbn; lra. }
  assert (Hvy : Vector3.y (Drone.velocity pre) = -9.81).
  { unfold pre, Drone.beforeGroundCollision, Drone.updatePosition.
    cbn [Drone.velocity Drone.with_mesh].
    rewrite checkCollisions_empty, new_free_fall; cbn; lra. }
  destruct (ground_clamp_velocity Drone.new 1 sticksCentred [] evenDraws Hlow)
    as (_ & Hdown & _ & Hx & Hz).
  fold pre in Hdown, Hx, Hz; fold post in Hdown, Hx, Hz.
  split; [exact Hlow|].
  split; [exact Hvy|].
  split; [rewrite Hdown; lra|].
  split; [exact Hx|exact Hz].
Defined.

(** ** The rate laws *)

Lemma beforeCollisionCheck_angularVelocity (d : Drone.t) (dt : R)
    (input : InputState.t) :
  Drone.angularVelocity (Drone.beforeCollisionCheck d dt input)
  = Drone.angularVelocity (Drone.rotationLogic d dt input).
Proof. reflexivity. Qed.

Lemma update_angularVelocity_no_crash (d : Drone.t) (dt : R)
    (input : InputState.t) (collidables : list Collidable) (rnd : Draws) :
  ~ Drone.crashes (Drone.beforeCollisionCheck d dt input) dt collidables ->
  Drone.angularVelocity (Drone.update d dt input collidables rnd)
  = Drone.angularVelocity (Drone.rotationLogic d dt input).
Proof.
  intros Hno.
  rewrite update_angularVelocity, checkCollisions_no_crash by exact Hno.
  apply beforeCollisionCheck_angularVelocity.
Qed.

Lemma no_collidables_no_crash (d : Drone.t) (dt : R) :
  ~ Drone.crashes d dt [].
Proof. intros (Hne & _); apply Hne; reflexivity. Qed.

Lemma blend_between (a b k : R) :
  0 <= k <= 1 -> between a b (a + (b - a) * k).
Proof.
  intros Hk; unfold between, Rmin, Rmax.
  destruct (Rle_dec a b); split; nra.
Qed.

(** C2, as the code has it: in ACRO mode the rate block sets the angular
    velocity to lerp(angularVelocity, target, dt * 10), target being the
    stick deflections times acroRate and the blend factor dt * 10 being used
    unclamped; unless a crash reseeds it, that is the angular velocity
    [update] returns; and for 0 <= dt <= 0.1, where the factor is at most 1,
    it lies between the old value and the target on every component. *)
Theorem acro_rate_blend (d : Drone.t) (dt : R) (input : InputState.t)
    (collidables : list Collidable) (rnd : Draws) :
  Drone.mode d = ACRO ->
  let blended :=
    Vector3.lerp (Drone.angularVelocity d) (Drone.targetAngularVel d input)
      (dt * 10) in
  Drone.angularVelocity (Drone.rotationLogic d dt input) = blended /\
  (~ Drone.crashes (Drone.beforeCollisionCheck d dt input) dt collidables ->
   Drone.angularVelocity (Drone.update d dt input collidables rnd)
   = blended) /\
  (0 <= dt <= 0.1 ->
   between3 (Drone.angularVelocity d) (Drone.targetAngularVel d input)
     blended).
Proof.
  intros Hmode blended.
  assert (Hrate :
    Drone.angularVelocity (Drone.rotationLogic d dt input) = blended).
  { unfold Drone.rotationLogic; rewrite Hmode; reflexivity. }
  split; [exact Hrate|].
  split.
  - intros Hno; rewrite update_angularVelocity_no_crash by exact Hno.
    exact Hrate.
  - intros Hdt; unfold between3, blended, Vector3.lerp; cbn.
    repeat split; apply blend_between; lra.
Qed.

Lemma acro_rate_blend_witness :
  let blended :=
    Vector3.lerp (Drone.angularVelocity Drone.new)
      (Drone.targetAngularVel Drone.new fullPitch) (0.05 * 10) in
  Drone.angularVelocity (Drone.rotationLogic Drone.new 0.05 fullPitch)
  = blended /\
  Drone.angularVelocity (Drone.update Drone.new 0.05 fullPitch [] evenDraws)
  = blended /\
  between3 (Drone.angularVelocity Drone.new)
    (Drone.targetAngularVel Drone.new fullPitch) blended.
Proof.
  destruct (acro_rate_blend Drone.new 0.05 fullPitch [] evenDraws)
    as (Hrate & Hupdate & Hbetween); [reflexivity|].
  split; [exact Hrate|].
  split; [apply Hupdate, no_collidables_no_crash|apply Hbetween; lra].
Defined.

(** C2 as stated fails: from the initial state in ACRO mode, full pitch and
    dt = 0.2 give the blend factor 2; [update] returns the pitch rate 16,
    which is neither the clamped blend lerp(0, 8, min(1, 2)) = 8 nor between
    the old rate 0 and the target 8. *)
Lemma acro_blend_factor_exceeds_one :
  let d' := Drone.update Drone.new 0.2 fullPitch [] evenDraws in
  Drone.mode Drone.new = ACRO /\
  0 <= 0.2 /\
  Vector3.x (Drone.angularVelocity d') = 16 /\
  Drone.angularVelocity d'
  <> Vector3.lerp (Drone.angularVelocity Drone.new)
       (Drone.targetAngularVel Drone.new fullPitch) (Rmin 1 (0.2 * 10)) /\
  ~ between (Vector3.x (Drone.angularVelocity Drone.new))
      (Vector3.x (Drone.targetAngularVel Drone.new fullPitch))
      (Vector3.x (Drone.angularVelocity d')).
Proof.
  intros d'.
  assert (Hx : Vector3.x (Drone.angularVelocity d') = 16).
  { unfold d'.
    rewrite update_angularVelocity_no_crash by apply no_collidables_no_crash.
    cbn; lra. }
  split; [reflexivity|].
  split; [lra|].
  split; [exact Hx|].
  split.
  - intros Heq; apply (f_equal Vector3.x) in Heq.
    rewrite Hx in Heq; cbn in Heq.
    rewrite Rmin_left in Heq by lra.
    lra.
  - rewrite Hx; unfold between; cbn.
    rewrite Rmax_right by lra.
    lra.
Qed.

(** With the throttle at zero only drag and gravity act on the velocity
    that reaches the collision check. *)
Lemma zero_throttle_velocity (d : Drone.t) (dt : R) (input : InputState.t) :
  InputState.thrust input = 0 ->
  let v := Drone.velocity d in
  Drone.velocity (Drone.beforeCollisionCheck d dt input)
  = Vector3.mk
      (Vector3.x v + - Drone.drag d * Vector3.x v * dt)
      (Vector3.y v + (Drone.gravity d - Drone.drag d * Vector3.y v) * dt)
      (Vector3.z v + - Drone.drag d * Vector3.z v * dt).
Proof.
  intros Hthrust v.
  unfold Drone.beforeCollisionCheck, Drone.updateVelocity,
    Drone.acceleration, Drone.thrustForce.
  rewrite Hthrust.
  cbn [Drone.velocity Drone.with_velocity Drone.applyRotation
       Drone.with_mesh Drone.gravity Drone.drag Drone.maxThrust].
  assert (Hv : Drone.velocity (Drone.rotationLogic d dt input) = v).
  { unfold Drone.rotationLogic; destruct (Drone.mode d); reflexivity. }
  rewrite Hv.
  assert (Hg : Drone.gravity (Drone.rotationLogic d dt input)
               = Drone.gravity d).
  { unfold Drone.rotationLogic; destruct (Drone.mode d); reflexivity. }
  assert (Hd : Drone.drag (Drone.rotationLogic d dt input) = Drone.drag d).
  { unfold Drone.rotationLogic; destruct (Drone.mode d); reflexivity. }
  rewrite Hg, Hd.
  unfold Vector3.add, Vector3.multiplyScalar;
    cbn [Vector3.x Vector3.y Vector3.z].
  f_equal; ring.
Qed.

Lemma length_at_most (v : Vector3.t) (b : R) :
  0 <= b ->
  Vector3.x v * Vector3.x v + Vector3.y v * Vector3.y v
  + Vector3.z v * Vector3.z v <= b * b ->
  Vector3.length v <= b.
Proof.
  intros Hb Hsq; unfold Vector3.length.
  rewrite <- (sqrt_square b) by exact Hb.
  apply sqrt_le_1_alt; exact Hsq.
Qed.

(** C1, as the code has it: both modes aim the yaw rate at
    input.yaw * acroRate, but LEVEL sets angularVelocity.y to that target at
    once while ACRO moves it from its old value towards the target by the
    factor dt * 10.  So, from the same state, input and collidables, whenever
    neither [update] takes the crash branch, the yaw rates the two modes
    return agree exactly when dt * 10 = 1 or the old yaw rate already equals
    the target. *)
Theorem yaw_rate_by_mode (d : Drone.t) (dt : R) (input : InputState.t)
    (collidables : list Collidable) (rnd : Draws) :
  ~ Drone.crashes
      (Drone.beforeCollisionCheck (Drone.setMode d LEVEL) dt input) dt
      collidables ->
  ~ Drone.crashes
      (Drone.beforeCollisionCheck (Drone.setMode d ACRO) dt input) dt
      collidables ->
  let target := InputState.yaw input * Drone.acroRate d in
  let old := Vector3.y (Drone.angularVelocity d) in
  let level :=
    Vector3.y
      (Drone.angularVelocity
         (Drone.update (Drone.setMode d LEVEL) dt input collidables rnd)) in
  let acro :=
    Vector3.y
      (Drone.angularVelocity
         (Drone.update (Drone.setMode d ACRO) dt input collidables rnd)) in
  level = target /\
  acro = old + (target - old) * (dt * 10) /\
  (acro = level <-> dt * 10 = 1 \/ old = target).
Proof.
  intros Hlevel_quiet Hacro_quiet target old level acro.
  assert (Hlevel : level = target).
  { unfold level.
    rewrite update_angularVelocity_no_crash by exact Hlevel_quiet.
    reflexivity. }
  assert (Hacro : acro = old + (target - old) * (dt * 10)).
  { unfold acro.
    rewrite update_angularVelocity_no_crash by exact Hacro_quiet.
    reflexivity. }
  split; [exact Hlevel|].
  split; [exact Hacro|].
  rewrite Hlevel, Hacro; split.
  - intros Heq.
    assert (Hprod : (target - old) * (dt * 10 - 1) = 0) by lra.
    apply Rmult_integral in Hprod; destruct Hprod; [right|left]; lra.
  - intros [Hone|Hsame]; [rewrite Hone|rewrite Hsame]; lra.
Qed.

(** A drone flying level at speed 5 past a wall 40 away: neither mode
    crashes, LEVEL returns the yaw rate 8 and ACRO 0.8. *)
Lemma yaw_rate_by_mode_witness :
  let d := Drone.with_velocity Drone.new (Vector3.mk 3 0 4) in
  let level :=
    Drone.update (Drone.setMode d LEVEL) 0.01 fullYaw [wallAt 40] evenDraws in
  let acro :=
    Drone.update (Drone.setMode d ACRO) 0.01 fullYaw [wallAt 40] evenDraws in
  Vector3.y (Drone.angularVelocity level) = 8 /\
  Vector3.y (Drone.angularVelocity acro) = 0.8.
Proof.
  intros d.
  assert (Hquiet :
    forall m : Mode,
      ~ Drone.crashes
          (Drone.beforeCollisionCheck (Drone.setMode d m) 0.01 fullYaw) 0.01
          [wallAt 40]).
  { intros m (_ & _ & distance & rest & Hhit & Hnear).
    injection Hhit as <- _.
    apply (Rlt_not_le _ _ Hnear), Rmax_lub.
    - destruct m; cbn; lra.
    - rewrite zero_throttle_velocity by reflexivity.
      match goal with
      | |- Vector3.length ?v * _ * _ <= _ =>
          assert (Hspeed : Vector3.length v <= 10)
      end.
      { apply length_at_most; [lra|].
        destruct m; cbn; nra. }
      lra. }
  destruct (yaw_rate_by_mode d 0.01 fullYaw [wallAt 40] evenDraws
              (Hquiet LEVEL) (Hquiet ACRO)) as (Hlevel & Hacro & _).
  cbv zeta; rewrite Hlevel, Hacro; cbn; lra.
Defined.

(** C1 as stated fails: from the initial state, full yaw and dt = 0.01,
    one [update] gives the yaw rate 0.8 in ACRO mode and 8 in LEVEL mode. *)
Lemma yaw_rates_differ_between_modes :
  let acro :=
    Drone.update (Drone.setMode Drone.new ACRO) 0.01 fullYaw [] evenDraws in
  let level :=
    Drone.update (Drone.setMode Drone.new LEVEL) 0.01 fullYaw [] evenDraws in
  Vector3.y (Drone.angularVelocity acro) = 0.8 /\
  Vector3.y (Drone.angularVelocity level) = 8 /\
  Vector3.y (Drone.angularVelocity acro)
  <> Vector3.y (Drone.angularVelocity level).
Proof.
  intros acro level.
  assert (Hacro : Vector3.y (Drone.angularVelocity acro) = 0.8).
  { unfold acro.
    rewrite update_angularVelocity_no_crash by apply no_collidables_no_crash.
    cbn; lra. }
  assert (Hlevel : Vector3.y (Drone.angularVelocity level) = 8).
  { unfold level.
    rewrite update_angularVelocity_no_crash by apply no_collidables_no_crash.
    cbn; lra. }
  split; [exact Hacro|].
  split; [exact Hlevel|].
  rewrite Hacro, Hlevel; lra.
Qed.

(** ** The timestep is taken as given *)

Lemma groundCollision_position (d : Drone.t) :
  let p := Object3D.position (Drone.mesh d) in
  Object3D.position (Drone.mesh (Drone.groundCollision d))
  = Vector3.mk (Vector3.x p) (Rmax 0.2 (Vector3.y p)) (Vector3.z p).
Proof.
  cbv zeta; unfold Drone.groundCollision.
  destruct (Rlt_dec _ _) as [Hlow|Hhigh]; cbn.
  - rewrite Rmax_left by lra; reflexivity.
  - rewrite Rmax_right by lra.
    destruct (Object3D.position (Drone.mesh d)); reflexivity.
Qed.

Lemma rotationLogic_velocity (d : Drone.t) (dt : R) (input : InputState.t) :
  Drone.velocity (Drone.rotationLogic d dt input) = Drone.velocity d.
Proof. unfold Drone.rotationLogic; destruct (Drone.mode d); reflexivity. Qed.

(** C9, as the code has it: [update] makes no check of dt and has no error
    path.  For every dt, negative ones included, the call returns normally
    having integrated with that dt: the velocity gains acceleration * dt, the
    horizontal position gains velocity * dt, and the height is
    max(0.2, position.y + velocity.y * dt), the velocity being the one that
    leaves the collision check. *)
Theorem update_takes_any_dt (d : Drone.t) (dt : R) (input : InputState.t)
    (collidables : list Collidable) (rnd : Draws) :
  let rotated := Drone.applyRotation (Drone.rotationLogic d dt input) dt in
  let moving :=
    Drone.checkCollisions (Drone.beforeCollisionCheck d dt input) dt
      collidables rnd in
  let p := Object3D.position (Drone.mesh d) in
  let v := Drone.velocity moving in
  exists d',
    Drone.update_call d dt input collidables rnd = Normal d' /\
    Drone.velocity (Drone.beforeCollisionCheck d dt input)
    = Vector3.add (Drone.velocity d)
        (Vector3.multiplyScalar (Drone.acceleration rotated input) dt) /\
    Object3D.position (Drone.mesh d')
    = Vector3.mk (Vector3.x p + Vector3.x v * dt)
                 (Rmax 0.2 (Vector3.y p + Vector3.y v * dt))
                 (Vector3.z p + Vector3.z v * dt).
Proof.
  intros rotated moving p v.
  exists (Drone.update d dt input collidables rnd).
  split; [reflexivity|].
  split.
  - unfold Drone.beforeCollisionCheck, Drone.updateVelocity; fold rotated.
    cbn; rewrite rotationLogic_velocity; reflexivity.
  - unfold Drone.update.
    rewrite groundCollision_position, beforeGroundCollision_position.
    reflexivity.
Qed.

Lemma groundCollision_off (d : Drone.t) :
  0.2 <= Vector3.y (Object3D.position (Drone.mesh d)) ->
  Drone.groundCollision d = d.
Proof.
  intros Hhigh; unfold Drone.groundCollision.
  destruct (Rlt_dec _ _) as [Hlow|_]; [lra|reflexivity].
Qed.

(** C9 as stated fails: from the initial state with the sticks centred, the
    call with dt = -0.1 is not rejected.  It returns normally with gravity
    integrated backward: the vertical velocity is +0.981 (upward) and the
    height has gone from 2 to 1.9019. *)
Lemma negative_dt_is_integrated :
  exists d',
    Drone.update_call Drone.new (-0.1) sticksCentred [] evenDraws
    = Normal d' /\
    Vector3.y (Drone.velocity d') = 0.981 /\
    Vector3.y (Object3D.position (Drone.mesh d')) = 1.9019 /\
    d' <> Drone.new.
Proof.
  exists (Drone.update Drone.new (-0.1) sticksCentred [] evenDraws).
  assert (Hpos :
    Object3D.position
      (Drone.mesh
         (Drone.beforeGroundCollision Drone.new (-0.1) sticksCentred []
            evenDraws))
    = Vector3.mk 0 1.9019 0).
  { rewrite beforeGroundCollision_position, checkCollisions_empty,
      new_free_fall.
    cbn; vector_arith. }
  assert (Hvel :
    Vector3.y
      (Drone.velocity
         (Drone.update Drone.new (-0.1) sticksCentred [] evenDraws))
    = 0.981).
  { unfold Drone.update.
    rewrite groundCollision_off by (rewrite Hpos; cbn; lra).
    unfold Drone.beforeGroundCollision, Drone.updatePosition.
    cbn [Drone.velocity Drone.with_mesh].
    rewrite checkCollisions_empty, new_free_fall; cbn; lra. }
  split; [reflexivity|].
  split; [exact Hvel|].
  split.
  - unfold Drone.update.
    rewrite groundCollision_off by (rewrite Hpos; cbn; lra).
    rewrite Hpos; reflexivity.
  - intros Heq; rewrite Heq in Hvel; cbn in Hvel; lra.
Qed.

(** ** The input handler *)

Lemma getState_consumes (gamepads : list (option Gamepad))
    (h : InputHandler.t) :
  InputState.toggleMode
    (InputHandler.state (snd (InputHandler.getState gamepads h)))
  = false.
Proof. reflexivity. Qed.

Lemma getState_keyboard (gamepads : list (option Gamepad))
    (h : InputHandler.t) :
  InputHandler.gamepadIndex h = None ->
  fst (InputHandler.getState gamepads h)
  = Normal (InputHandler.discreteMapping h).
Proof.
  intros Hnone; unfold InputHandler.getState; rewrite Hnone; reflexivity.
Qed.

Lemma getState_gamepad (gamepads : list (option Gamepad))
    (h : InputHandler.t) (i : nat) (gp : Gamepad) :
  InputHandler.gamepadIndex h = Some i ->
  mjoin (gamepads !! i) = Some gp ->
  fst (InputHandler.getState gamepads h)
  = InputHandler.gamepadInput gp
      (InputState.toggleMode (InputHandler.state h)).
Proof.
  intros Hidx Hgp; unfold InputHandler.getState; rewrite Hidx, Hgp; cbn.
  destruct (InputHandler.gamepadInput _ _); reflexivity.
Qed.

Lemma getState_stale_index (gamepads : list (option Gamepad))
    (h : InputHandler.t) (i : nat) :
  InputHandler.gamepadIndex h = Some i ->
  mjoin (gamepads !! i) = None ->
  fst (InputHandler.getState gamepads h)
  = Normal
      (InputState.mk 0 0 0 0 (InputState.toggleMode (InputHandler.state h))).
Proof.
  intros Hidx Hgp; unfold InputHandler.getState; rewrite Hidx, Hgp.
  reflexivity.
Qed.

(** With the keyboard alone, a second poll with no key event in between
    finds the flag consumed. *)
Lemma keyboard_toggle_consumed (gamepads1 gamepads2 : list (option Gamepad))
    (h : InputHandler.t) :
  InputHandler.gamepadIndex h = None ->
  toggleRequested
    (fst (InputHandler.getState gamepads2
            (snd (InputHandler.getState gamepads1 h))))
  = false.
Proof.
  intros Hnone; rewrite getState_keyboard; [reflexivity|exact Hnone].
Qed.

(** C6 at the failing input: a pad is connected at index 0 and its button 0
    is held down across two consecutive polls, with no event in between.
    Both polls report toggleMode = true, although each poll resets the stored
    flag. *)
Lemma held_gamepad_button_toggles_every_poll :
  let h0 := InputHandler.onGamepadConnected InputHandler.new padButtonHeld in
  let poll1 := InputHandler.getState [Some padButtonHeld] h0 in
  let poll2 := InputHandler.getState [Some padButtonHeld] (snd poll1) in
  toggleRequested (fst poll1) = true /\
  InputState.toggleMode (InputHandler.state (snd poll1)) = false /\
  toggleRequested (fst poll2) = true.
Proof. cbn; repeat split; reflexivity. Qed.

(** C7, as the code has it: with no gamepad registered, each of pitch, roll
    and yaw is 0 when neither key of its pair is held, the key's own value
    when exactly one is held (W -1 / S +1, A -1 / D +1, Q +1 / E -1), and,
    when both are held, the value of the key tested last: +1 for pitch (S),
    +1 for roll (D), -1 for yaw (E). *)
Theorem keyboard_pair_mapping (gamepads : list (option Gamepad))
    (h : InputHandler.t) :
  InputHandler.gamepadIndex h = None ->
  let down := InputHandler.held (InputHandler.keys h) in
  exists s,
    fst (InputHandler.getState gamepads h) = Normal s /\
    InputState.pitch s
    = match down "KeyW", down "KeyS" with
      | false, false => 0
      | true, false => -1
      | false, true => 1
      | true, true => 1
      end /\
    InputState.roll s
    = match down "KeyA", down "KeyD" with
      | false, false => 0
      | true, false => -1
      | false, true => 1
      | true, true => 1
      end /\
    InputState.yaw s
    = match down "KeyQ", down "KeyE" with
      | false, false => 0
      | true, false => 1
      | false, true => -1
      | true, true => -1
      end.
Proof.
  intros Hnone down.
  exists (InputHandler.discreteMapping h).
  split; [apply getState_keyboard; exact Hnone|].
  unfold InputHandler.discreteMapping, InputHandler.keyboardInput; fold down.
  cbn [InputState.pitch InputState.roll InputState.yaw].
  repeat split.
  - destruct (down "KeyW"), (down "KeyS"); reflexivity.
  - destruct (down "KeyA"), (down "KeyD"); reflexivity.
  - destruct (down "KeyQ"), (down "KeyE"); reflexivity.
Qed.

Lemma keyboard_pair_mapping_witness :
  exists s,
    fst (InputHandler.getState []
           (InputHandler.onKeyDown InputHandler.new "KeyW"))
    = Normal s /\
    InputState.pitch s = -1 /\
    InputState.roll s = 0 /\
    InputState.yaw s = 0.
Proof.
  destruct (keyboard_pair_mapping []
              (InputHandler.onKeyDown InputHandler.new "KeyW"))
    as (s & Hs & Hpitch & Hroll & Hyaw); [reflexivity|].
  exists s; split; [exact Hs|].
  split; [exact Hpitch|].
  split; [exact Hroll|exact Hyaw].
Defined.

(** C7 as stated fails: with no gamepad and both pitch keys W and S held,
    the poll returns pitch = 1, not 0. *)
Lemma both_pitch_keys_give_one :
  let h :=
    InputHandler.onKeyDown (InputHandler.onKeyDown InputHandler.new "KeyW")
      "KeyS" in
  InputHandler.gamepadIndex h = None /\
  InputHandler.held (InputHandler.keys h) "KeyW" = true /\
  InputHandler.held (InputHandler.keys h) "KeyS" = true /\
  exists s,
    fst (InputHandler.getState [] h) = Normal s /\
    InputState.pitch s = 1 /\
    InputState.pitch s <> 0.
Proof.
  intros h.
  split; [reflexivity|].
  split; [reflexivity|].
  split; [reflexivity|].
  assert (HS : InputHandler.held (InputHandler.keys h) "KeyS" = true)
    by reflexivity.
  assert (Hpitch : InputState.pitch (InputHandler.discreteMapping h) = 1).
  { unfold InputHandler.discreteMapping, InputHandler.keyboardInput.
    cbn [InputState.pitch]; rewrite HS; reflexivity. }
  exists (InputHandler.discreteMapping h).
  split; [apply getState_keyboard; reflexivity|].
  split; [exact Hpitch|rewrite Hpitch; lra].
Qed.

(** C8 at the failing input: a gamepad was connected at index 0, but
    [navigator.getGamepads()] has no pad in that slot during the poll, and
    Space is held.  No analog reading is available, the discrete mapping asks
    for thrust 1, yet the poll returns thrust 0 (and all axes 0): the
    keyboard block is skipped because gamepadIndex is not null. *)
Lemma stale_gamepad_index_drops_keyboard :
  let h :=
    InputHandler.onGamepadConnected
      (InputHandler.onKeyDown InputHandler.new "Space") padButtonHeld in
  let gamepads : list (option Gamepad) := [None] in
  mjoin (gamepads !! 0%nat) = None /\
  InputState.thrust (InputHandler.discreteMapping h) = 1 /\
  exists s,
    fst (InputHandler.getState gamepads h) = Normal s /\
    InputState.thrust s = 0 /\
    s <> InputHandler.discreteMapping h.
Proof.
  intros h gamepads.
  assert (Hspace : InputHandler.held (InputHandler.keys h) "Space" = true)
    by reflexivity.
  assert (Hshift : InputHandler.held (InputHandler.keys h) "ShiftLeft" = false)
    by reflexivity.
  assert (Hthrust : InputState.thrust (InputHandler.discreteMapping h) = 1).
  { unfold InputHandler.discreteMapping, InputHandler.keyboardInput.
    cbn [InputState.thrust]; rewrite Hspace, Hshift; lra. }
  split; [reflexivity|].
  split; [exact Hthrust|].
  exists (InputState.mk 0 0 0 0 false).
  split; [reflexivity|].
  split; [reflexivity|].
  intros Heq; rewrite <- Heq in Hthrust; cbn in Hthrust; lra.
Qed.

(** * Further properties of the input handler *)

Lemma gamepadInput_normal (gp : Gamepad) (toggleMode0 : bool)
    (s : InputState.t) :
  InputHandler.gamepadInput gp toggleMode0 = Normal s ->
  exists pressed : bool,
    (buttons gp : list bool) !! 0%nat = Some pressed /\
    s = InputState.mk ((- axes1 gp + 1) / 2)
          (InputHandler.deadzone (- axes0 gp))
          (InputHandler.deadzone (axes3 gp))
          (InputHandler.deadzone (axes2 gp))
          (if pressed then true else toggleMode0).
Proof.
  unfold InputHandler.gamepadInput.
  destruct (buttons gp) as [|pressed rest]; cbn; [discriminate|].
  intros Heq; exists pressed; split; [reflexivity|].
  injection Heq as <-; reflexivity.
Qed.

(** X1: with a gamepad read, yaw, pitch and roll are the stick readings
    (yaw negated) when their magnitude is at least 0.1 and exactly 0 when it
    is below 0.1. *)
Theorem gamepad_axes_deadzone (gamepads : list (option Gamepad))
    (h : InputHandler.t) (i : nat) (gp : Gamepad) (s : InputState.t) :
  InputHandler.gamepadIndex h = Some i ->
  mjoin (gamepads !! i) = Some gp ->
  fst (InputHandler.getState gamepads h) = Normal s ->
  InputState.yaw s = (if Rlt_dec (Rabs (axes0 gp)) 0.1 then 0 else - axes0 gp)
  /\ InputState.pitch s
     = (if Rlt_dec (Rabs (axes3 gp)) 0.1 then 0 else axes3 gp)
  /\ InputState.roll s
     = (if Rlt_dec (Rabs (axes2 gp)) 0.1 then 0 else axes2 gp).
Proof.
  intros Hidx Hgp Hs.
  rewrite (getState_gamepad gamepads h i gp Hidx Hgp) in Hs.
  apply gamepadInput_normal in Hs as (pressed & _ & ->); cbn.
  unfold InputHandler.deadzone; rewrite Rabs_Ropp.
  repeat split; reflexivity.
Qed.

(** A pad with the left stick pushed up and slightly left, the right stick
    pushed right; button 0 released. *)
Lemma gamepad_axes_deadzone_witness :
  let gp := mkGamepad 0 0.05 (-1) 0.5 (-0.02) [false] in
  let h := InputHandler.onGamepadConnected InputHandler.new gp in
  exists s,
    fst (InputHandler.getState [Some gp] h) = Normal s /\
    InputState.yaw s = 0 /\
    InputState.pitch s = 0 /\
    InputState.roll s = 0.5.
Proof.
  intros gp h.
  destruct (InputHandler.gamepadInput gp false) as [s|msg] eqn:Hs;
    [|discriminate].
  exists s; split; [exact Hs|].
  destruct (gamepad_axes_deadzone [Some gp] h 0%nat gp s
              eq_refl eq_refl Hs) as (Hyaw & Hpitch & Hroll).
  rewrite Hyaw, Hpitch, Hroll; clear Hyaw Hpitch Hroll Hs; cbn.
  repeat split.
  - destruct (Rlt_dec _ _) as [_|Hbig]; [reflexivity|].
    exfalso; apply Hbig; rewrite Rabs_right; lra.
  - destruct (Rlt_dec _ _) as [_|Hbig]; [reflexivity|].
    exfalso; apply Hbig; rewrite Rabs_left; lra.
  - destruct (Rlt_dec _ _) as [Hsmall|_]; [|reflexivity].
    rewrite Rabs_right in Hsmall; lra.
Defined.

(** X2: with a gamepad read, thrust is (1 - axes[1]) / 2 with no clamp: it
    lies in [0, 1] exactly when the stick reading lies in [-1, 1]. *)
Theorem gamepad_thrust_range (gamepads : list (option Gamepad))
    (h : InputHandler.t) (i : nat) (gp : Gamepad) (s : InputState.t) :
  InputHandler.gamepadIndex h = Some i ->
  mjoin (gamepads !! i) = Some gp ->
  fst (InputHandler.getState gamepads h) = Normal s ->
  InputState.thrust s = (1 - axes1 gp) / 2 /\
  (0 <= InputState.thrust s <= 1 <-> -1 <= axes1 gp <= 1).
Proof.
  intros Hidx Hgp Hs.
  rewrite (getState_gamepad gamepads h i gp Hidx Hgp) in Hs.
  apply gamepadInput_normal in Hs as (pressed & _ & ->); cbn.
  split; [lra|split; intros Hrange; lra].
Qed.

Lemma gamepad_thrust_range_witness :
  let gp := mkGamepad 0 0.05 (-1) 0.5 (-0.02) [false] in
  let h := InputHandler.onGamepadConnected InputHandler.new gp in
  exists s,
    fst (InputHandler.getState [Some gp] h) = Normal s /\
    InputState.thrust s = 1.
Proof.
  intros gp h.
  destruct (InputHandler.gamepadInput gp false) as [s|msg] eqn:Hs;
    [|discriminate].
  exists s; split; [exact Hs|].
  destruct (gamepad_thrust_range [Some gp] h 0%nat gp s
              eq_refl eq_refl Hs) as (Hthrust & _).
  rewrite Hthrust; cbn; lra.
Defined.

Lemma onKeyDown_gamepadIndex (h : InputHandler.t) (code : string) :
  InputHandler.gamepadIndex (InputHandler.onKeyDown h code)
  = InputHandler.gamepadIndex h.
Proof.
  unfold InputHandler.onKeyDown; destruct (decide _); reflexivity.
Qed.

Lemma onKeyUp_gamepadIndex (h : InputHandler.t) (code : string) :
  InputHandler.gamepadIndex (InputHandler.onKeyUp h code)
  = InputHandler.gamepadIndex h.
Proof.
  unfold InputHandler.onKeyUp; destruct (decide _); reflexivity.
Qed.

Lemma getState_registered (gamepads : list (option Gamepad))
    (h : InputHandler.t) (i : nat) :
  InputHandler.gamepadIndex h = Some i ->
  fst (InputHandler.getState gamepads h)
  = match mjoin (gamepads !! i) with
    | Some gp =>
        InputHandler.gamepadInput gp
          (InputState.toggleMode (InputHandler.state h))
    | None =>
        Normal (InputState.mk 0 0 0 0
                  (InputState.toggleMode (InputHandler.state h)))
    end.
Proof.
  intros Hidx.
  destruct (mjoin (gamepads !! i)) as [gp|] eqn:Hgp.
  - apply (getState_gamepad gamepads h i gp); assumption.
  - apply (getState_stale_index gamepads h i); assumption.
Qed.

Lemma gamepadInput_axes (gp : Gamepad) (toggle1 toggle2 : bool) :
  axesOf (InputHandler.gamepadInput gp toggle1)
  = axesOf (InputHandler.gamepadInput gp toggle2).
Proof.
  unfold InputHandler.gamepadInput.
  destruct (buttons gp) as [|pressed rest]; reflexivity.
Qed.

(** X3: once a gamepad index is registered the keyboard has no say over the
    axes: a keydown or keyup of any key leaves the thrust, yaw, pitch and
    roll of the next poll (and whether it throws) as they would have been,
    whether or not the pad can be read. *)
Theorem registered_gamepad_silences_keys (gamepads : list (option Gamepad))
    (h : InputHandler.t) (i : nat) (code : string) :
  InputHandler.gamepadIndex h = Some i ->
  axesOf (fst (InputHandler.getState gamepads
                 (InputHandler.onKeyDown h code)))
  = axesOf (fst (InputHandler.getState gamepads h)) /\
  axesOf (fst (InputHandler.getState gamepads (InputHandler.onKeyUp h code)))
  = axesOf (fst (InputHandler.getState gamepads h)).
Proof.
  intros Hidx.
  rewrite (getState_registered gamepads h i Hidx).
  rewrite (getState_registered gamepads (InputHandler.onKeyDown h code) i)
    by (rewrite onKeyDown_gamepadIndex; exact Hidx).
  rewrite (getState_registered gamepads (InputHandler.onKeyUp h code) i)
    by (rewrite onKeyUp_gamepadIndex; exact Hidx).
  destruct (mjoin (gamepads !! i)) as [gp|]; [|split; reflexivity].
  split; apply gamepadInput_axes.
Qed.

Lemma registered_gamepad_silences_keys_witness :
  let h := InputHandler.onGamepadConnected InputHandler.new padButtonHeld in
  axesOf (fst (InputHandler.getState [Some padButtonHeld]
                 (InputHandler.onKeyDown h "Space")))
  = axesOf (fst (InputHandler.getState [Some padButtonHeld] h)) /\
  axesOf (fst (InputHandler.getState [Some padButtonHeld]
                 (InputHandler.onKeyUp h "Space")))
  = axesOf (fst (InputHandler.getState [Some padButtonHeld] h)).
Proof.
  intros h.
  apply (registered_gamepad_silences_keys [Some padButtonHeld] h 0 "Space").
  reflexivity.
Defined.

Lemma getState_throw_cases (gamepads : list (option Gamepad))
    (h : InputHandler.t) :
  (exists msg, fst (InputHandler.getState gamepads h) = Throw msg) <->
  (exists i gp,
     InputHandler.gamepadIndex h = Some i /\
     mjoin (gamepads !! i) = Some gp /\
     buttons gp = []).
Proof.
  split.
  - intros (msg & Hthrow).
    destruct (InputHandler.gamepadIndex h) as [i|] eqn:Hidx.
    + destruct (mjoin (gamepads !! i)) as [gp|] eqn:Hgp.
      * rewrite (getState_gamepad gamepads h i gp Hidx Hgp) in Hthrow.
        exists i, gp; split; [reflexivity|]; split; [exact Hgp|].
        unfold InputHandler.gamepadInput in Hthrow.
        destruct (buttons gp) as [|b bs]; [reflexivity|discriminate].
      * rewrite (getState_stale_index gamepads h i Hidx Hgp) in Hthrow.
        discriminate.
    + rewrite (getState_keyboard gamepads h Hidx) in Hthrow; discriminate.
  - intros (i & gp & Hidx & Hgp & Hnone).
    rewrite (getState_gamepad gamepads h i gp Hidx Hgp).
    unfold InputHandler.gamepadInput; rewrite Hnone; cbn.
    eexists; reflexivity.
Qed.

(** X4: a poll throws exactly when a gamepad index is registered, the pad
    in that slot can be read, and the pad has no button 0. *)
Theorem getState_throws_iff (gamepads : list (option Gamepad))
    (h : InputHandler.t) :
  (exists msg, fst (InputHandler.getState gamepads h) = Throw msg) <->
  (exists i gp,
     InputHandler.gamepadIndex h = Some i /\
     mjoin (gamepads !! i) = Some gp /\
     buttons gp = []).
Proof. exact (getState_throw_cases gamepads h). Qed.

(** X5: keyboard throttle.  With no gamepad registered, thrust is 0 whenever
    ShiftLeft is held (Space or not), 1 when Space is held without ShiftLeft,
    and 0 otherwise. *)
Theorem keyboard_thrust (gamepads : list (option Gamepad))
    (h : InputHandler.t) :
  InputHandler.gamepadIndex h = None ->
  let down := InputHandler.held (InputHandler.keys h) in
  exists s,
    fst (InputHandler.getState gamepads h) = Normal s /\
    InputState.thrust s
    = (if down "ShiftLeft" then 0 else if down "Space" then 1 else 0).
Proof.
  intros Hnone down.
  exists (InputHandler.discreteMapping h).
  split; [apply getState_keyboard; exact Hnone|].
  unfold InputHandler.discreteMapping, InputHandler.keyboardInput; fold down.
  cbn [InputState.thrust].
  destruct (down "ShiftLeft"), (down "Space"); lra.
Qed.

Lemma keyboard_thrust_witness :
  let h :=
    InputHandler.onKeyDown (InputHandler.onKeyDown InputHandler.new "Space")
      "ShiftLeft" in
  exists s,
    fst (InputHandler.getState [] h) = Normal s /\ InputState.thrust s = 0.
Proof.
  intros h.
  destruct (keyboard_thrust [] h eq_refl) as (s & Hs & Hthrust).
  exists s; split; [exact Hs|].
  rewrite Hthrust.
  replace (InputHandler.held (InputHandler.keys h) "ShiftLeft") with true
    by reflexivity.
  reflexivity.
Defined.

Lemma held_insert (ks : gmap string bool) (code code' : string) (b : bool) :
  InputHandler.held (<[code := b]> ks) code'
  = if decide (code = code') then b else InputHandler.held ks code'.
Proof.
  unfold InputHandler.held.
  destruct (decide (code = code')) as [->|Hne].
  - rewrite lookup_insert_eq; reflexivity.
  - rewrite lookup_insert_ne by exact Hne; reflexivity.
Qed.

Lemma onKeyDown_keys (h : InputHandler.t) (code : string) :
  InputHandler.keys (InputHandler.onKeyDown h code)
  = <[code := true]> (InputHandler.keys h).
Proof.
  unfold InputHandler.onKeyDown; destruct (decide _); reflexivity.
Qed.

Lemma onKeyUp_keys (h : InputHandler.t) (code : string) :
  InputHandler.keys (InputHandler.onKeyUp h code)
  = <[code := false]> (InputHandler.keys h).
Proof.
  unfold InputHandler.onKeyUp; destruct (decide _); reflexivity.
Qed.

(** X6: the key table.  For key codes that are not property names of
    [Object.prototype] (every code a keyboard event carries): after a
    keydown the key counts as held, after a keyup it does not, and neither
    event changes whether another such key counts as held. *)
Theorem key_events_track_keys (h : InputHandler.t) (code other : string) :
  ~ In code objectPrototypeNames ->
  ~ In other objectPrototypeNames ->
  other <> code ->
  let held h' c := InputHandler.held (InputHandler.keys h') c in
  held (InputHandler.onKeyDown h code) code = true /\
  held (InputHandler.onKeyUp h code) code = false /\
  held (InputHandler.onKeyDown h code) other = held h other /\
  held (InputHandler.onKeyUp h code) other = held h other.
Proof.
  intros _ _ Hne held; unfold held.
  rewrite !onKeyDown_keys, !onKeyUp_keys, !held_insert.
  rewrite !decide_True by reflexivity.
  rewrite !decide_False by (intros Heq; apply Hne; symmetry; exact Heq).
  repeat split.
Qed.

Lemma key_events_track_keys_witness :
  let h := InputHandler.onKeyDown InputHandler.new "KeyS" in
  let held h' c := InputHandler.held (InputHandler.keys h') c in
  held (InputHandler.onKeyDown h "KeyW") "KeyW" = true /\
  held (InputHandler.onKeyUp h "KeyW") "KeyW" = false /\
  held (InputHandler.onKeyDown h "KeyW") "KeyS" = true /\
  held (InputHandler.onKeyUp h "KeyW") "KeyS" = true.
Proof.
  intros h.
  apply (key_events_track_keys h "KeyW" "KeyS").
  - cbn; intros Hin; repeat destruct Hin as [Hin|Hin];
      discriminate || exact Hin.
  - cbn; intros Hin; repeat destruct Hin as [Hin|Hin];
      discriminate || exact Hin.
  - discriminate.
Defined.

Lemma getState_toggle_passed (gamepads : list (option Gamepad))
    (h : InputHandler.t) (s : InputState.t) :
  fst (InputHandler.getState gamepads h) = Normal s ->
  InputState.toggleMode (InputHandler.state h) = true ->
  InputState.toggleMode s = true.
Proof.
  intros Hs Hflag.
  destruct (InputHandler.gamepadIndex h) as [i|] eqn:Hidx.
  - destruct (mjoin (gamepads !! i)) as [gp|] eqn:Hgp.
    + rewrite (getState_gamepad gamepads h i gp Hidx Hgp) in Hs.
      apply gamepadInput_normal in Hs as (pressed & _ & ->); cbn.
      rewrite Hflag; destruct pressed; reflexivity.
    + rewrite (getState_stale_index gamepads h i Hidx Hgp) in Hs.
      injection Hs as <-; exact Hflag.
  - rewrite (getState_keyboard gamepads h Hidx) in Hs.
    injection Hs as <-; exact Hflag.
Qed.

(** X7: a press of M is reported by the next poll, whatever the input
    source, if that poll returns. *)
Theorem m_press_reported (gamepads : list (option Gamepad))
    (h : InputHandler.t) (s : InputState.t) :
  fst (InputHandler.getState gamepads (InputHandler.onKeyDown h "KeyM"))
  = Normal s ->
  InputState.toggleMode s = true.
Proof.
  intros Hs.
  apply (getState_toggle_passed _ _ _ Hs).
  reflexivity.
Qed.

Lemma m_press_reported_witness :
  let h := InputHandler.onKeyDown InputHandler.new "KeyM" in
  fst (InputHandler.getState [] h) = Normal (InputHandler.discreteMapping h)
  /\ InputState.toggleMode (InputHandler.discreteMapping h) = true.
Proof.
  intros h.
  assert (Hs :
    fst (InputHandler.getState [] h)
    = Normal (InputHandler.discreteMapping h))
    by (apply getState_keyboard; reflexivity).
  split; [exact Hs|].
  exact (m_press_reported [] InputHandler.new _ Hs).
Defined.

(** X8: a tap is lost.  With no gamepad registered, if M is pressed and
    released before the next poll, that poll reports no toggle request. *)
Theorem m_tap_between_polls_lost (gamepads : list (option Gamepad))
    (h : InputHandler.t) :
  InputHandler.gamepadIndex h = None ->
  toggleRequested
    (fst (InputHandler.getState gamepads
            (InputHandler.onKeyUp (InputHandler.onKeyDown h "KeyM") "KeyM")))
  = false.
Proof.
  intros Hnone.
  rewrite getState_keyboard; [reflexivity|].
  rewrite onKeyUp_gamepadIndex, onKeyDown_gamepadIndex; exact Hnone.
Qed.

Lemma m_tap_between_polls_lost_witness :
  toggleRequested
    (fst (InputHandler.getState []
            (InputHandler.onKeyUp
               (InputHandler.onKeyDown InputHandler.new "KeyM") "KeyM")))
  = false.
Proof. apply m_tap_between_polls_lost; reflexivity. Defined.

(** X9: only the pad connected last is tracked.  After a pad connects, the
    disconnection of a pad with the same index returns the handler to the
    keyboard; the disconnection of any other pad changes nothing.  So if a
    second pad connects and then leaves, the keyboard is used although the
    first pad is still there. *)
Theorem gamepad_tracking (h : InputHandler.t) (first second : Gamepad) :
  index first <> index second ->
  let connected := InputHandler.onGamepadConnected h second in
  InputHandler.gamepadIndex
    (InputHandler.onGamepadDisconnected connected second)
  = None /\
  InputHandler.onGamepadDisconnected connected first = connected /\
  InputHandler.gamepadIndex
    (InputHandler.onGamepadDisconnected
       (InputHandler.onGamepadConnected
          (InputHandler.onGamepadConnected h first) second) second)
  = None.
Proof.
  intros Hne; cbv zeta; unfold InputHandler.onGamepadDisconnected,
    InputHandler.onGamepadConnected; cbn.
  rewrite !decide_True by reflexivity.
  split; [reflexivity|].
  split; [|reflexivity].
  rewrite decide_False; [reflexivity|].
  intros Heq; injection Heq as Heq; apply Hne; symmetry; exact Heq.
Qed.

Lemma gamepad_tracking_witness :
  let first := mkGamepad 0 0 0 0 0 [false] in
  let second := mkGamepad 1 0 0 0 0 [false] in
  let connected := InputHandler.onGamepadConnected InputHandler.new second in
  InputHandler.gamepadIndex
    (InputHandler.onGamepadDisconnected connected second)
  = None /\
  InputHandler.onGamepadDisconnected connected first = connected /\
  InputHandler.gamepadIndex
    (InputHandler.onGamepadDisconnected
       (InputHandler.onGamepadConnected
          (InputHandler.onGamepadConnected InputHandler.new first) second)
       second)
  = None.
Proof.
  intros first second.
  apply (gamepad_tracking InputHandler.new first second).
  cbn; discriminate.
Defined.

(** * Further properties of the flight core *)

(** ** What [update] never touches *)

Lemma groundCollision_mode (d : Drone.t) :
  Drone.mode (Drone.groundCollision d) = Drone.mode d.
Proof. unfold Drone.groundCollision; destruct (Rlt_dec _ _); reflexivity. Qed.

Lemma groundCollision_acroRate (d : Drone.t) :
  Drone.acroRate (Drone.groundCollision d) = Drone.acroRate d.
Proof. unfold Drone.groundCollision; destruct (Rlt_dec _ _); reflexivity. Qed.

Lemma checkCollisions_cases (d : Drone.t) (dt : R)
    (collidables : list Collidable) (rnd : Draws) :
  Drone.checkCollisions d dt collidables rnd = d \/
  Drone.checkCollisions d dt collidables rnd = Drone.crash d rnd.
Proof.
  unfold Drone.checkCollisions.
  destruct collidables; [left; reflexivity|].
  destruct (Rlt_dec _ _); [|left; reflexivity].
  destruct (Drone.intersects _ _); [left; reflexivity|].
  destruct (Rlt_dec _ _); [right|left]; reflexivity.
Qed.

Lemma rotationLogic_mode (d : Drone.t) (dt : R) (input : InputState.t) :
  Drone.mode (Drone.rotationLogic d dt input) = Drone.mode d.
Proof.
  unfold Drone.rotationLogic; destruct (Drone.mode d) eqn:Hmode; cbn;
    rewrite Hmode; reflexivity.
Qed.

Lemma rotationLogic_acroRate (d : Drone.t) (dt : R) (input : InputState.t) :
  Drone.acroRate (Drone.rotationLogic d dt input) = Drone.acroRate d.
Proof. unfold Drone.rotationLogic; destruct (Drone.mode d); reflexivity. Qed.

Ltac through_update :=
  unfold Drone.update, Drone.beforeGroundCollision, Drone.updatePosition;
  first [rewrite groundCollision_mode | rewrite groundCollision_acroRate];
  cbn [Drone.mode Drone.acroRate Drone.with_mesh];
  match goal with
  | |- context [Drone.checkCollisions ?d ?dt ?cs ?rnd] =>
      destruct (checkCollisions_cases d dt cs rnd) as [-> | ->]
  end;
  unfold Drone.crash, Drone.beforeCollisionCheck, Drone.updateVelocity,
    Drone.applyRotation;
  cbn [Drone.mode Drone.acroRate Drone.with_mesh Drone.with_velocity
       Drone.with_angularVelocity];
  first [apply rotationLogic_mode | apply rotationLogic_acroRate].

Lemma update_mode (d : Drone.t) (dt : R) (input : InputState.t)
    (collidables : list Collidable) (rnd : Draws) :
  Drone.mode (Drone.update d dt input collidables rnd) = Drone.mode d.
Proof. through_update. Qed.

Lemma update_acroRate (d : Drone.t) (dt : R) (input : InputState.t)
    (collidables : list Collidable) (rnd : Draws) :
  Drone.acroRate (Drone.update d dt input collidables rnd) = Drone.acroRate d.
Proof. through_update. Qed.

(** ** ACRO: the rate error shrinks geometrically *)

Lemma fly_mode (n : nat) :
  forall (d : Drone.t) (dt : R) (input : InputState.t) (rnd : Draws),
    Drone.mode (fly n d dt input rnd) = Drone.mode d.
Proof.
  induction n as [|n IH]; intros d dt input rnd; cbn; [reflexivity|].
  rewrite IH; apply update_mode.
Qed.

Lemma acro_error_step (d : Drone.t) (dt : R) (input : InputState.t)
    (rnd : Draws) :
  Drone.mode d = ACRO ->
  let target := Drone.targetAngularVel d input in
  let w := Drone.angularVelocity d in
  let w' := Drone.angularVelocity (Drone.update d dt input [] rnd) in
  Vector3.x w' - Vector3.x target
  = (1 - dt * 10) * (Vector3.x w - Vector3.x target) /\
  Vector3.y w' - Vector3.y target
  = (1 - dt * 10) * (Vector3.y w - Vector3.y target) /\
  Vector3.z w' - Vector3.z target
  = (1 - dt * 10) * (Vector3.z w - Vector3.z target).
Proof.
  intros Hmode target w w'; unfold w'.
  rewrite update_angularVelocity_no_crash by apply no_collidables_no_crash.
  unfold Drone.rotationLogic; rewrite Hmode; cbn.
  fold target; fold w.
  repeat split; ring.
Qed.

Lemma fly_acro_error (n : nat) :
  forall (d : Drone.t) (dt : R) (input : InputState.t) (rnd : Draws),
    Drone.mode d = ACRO ->
    let target := Drone.targetAngularVel d input in
    let w := Drone.angularVelocity d in
    let w' := Drone.angularVelocity (fly n d dt input rnd) in
    Vector3.x w' - Vector3.x target
    = (1 - dt * 10) ^ n * (Vector3.x w - Vector3.x target) /\
    Vector3.y w' - Vector3.y target
    = (1 - dt * 10) ^ n * (Vector3.y w - Vector3.y target) /\
    Vector3.z w' - Vector3.z target
    = (1 - dt * 10) ^ n * (Vector3.z w - Vector3.z target).
Proof.
  induction n as [|n IH]; intros d dt input rnd Hmode; cbn zeta.
  - cbn; repeat split; ring.
  - cbn [fly].
    destruct (acro_error_step d dt input rnd Hmode) as (Hx & Hy & Hz).
    destruct (IH (Drone.update d dt input [] rnd) dt input rnd)
      as (IHx & IHy & IHz); [rewrite update_mode; exact Hmode|].
    unfold Drone.targetAngularVel in *;
      cbn [Vector3.x Vector3.y Vector3.z] in *.
    rewrite update_acroRate in IHx, IHy, IHz.
    rewrite IHx, IHy, IHz, Hx, Hy, Hz; cbn [pow].
    repeat split; ring.
Qed.

(** X10: ACRO rate tracking.  With the same timestep and stick input every
    frame and nothing to hit, after n frames the difference between the
    angular velocity and its target (the stick deflections times acroRate)
    is (1 - 10 dt)^n times the initial difference, on every component. *)
Theorem acro_rate_error_geometric (n : nat) :
  forall (d : Drone.t) (dt : R) (input : InputState.t) (rnd : Draws),
    Drone.mode d = ACRO ->
    let target := Drone.targetAngularVel d input in
    let w := Drone.angularVelocity d in
    let w' := Drone.angularVelocity (fly n d dt input rnd) in
    Vector3.x w' - Vector3.x target
    = (1 - dt * 10) ^ n * (Vector3.x w - Vector3.x target) /\
    Vector3.y w' - Vector3.y target
    = (1 - dt * 10) ^ n * (Vector3.y w - Vector3.y target) /\
    Vector3.z w' - Vector3.z target
    = (1 - dt * 10) ^ n * (Vector3.z w - Vector3.z target).
Proof. exact (fly_acro_error n). Qed.

Lemma acro_rate_error_geometric_witness :
  let w' := Drone.angularVelocity (fly 3 Drone.new 0.05 fullPitch evenDraws) in
  Vector3.x w' = 7.
Proof.
  intros w'.
  destruct (acro_rate_error_geometric 3 Drone.new 0.05 fullPitch evenDraws
              eq_refl) as (Hx & _).
  fold w' in Hx; cbn in Hx; lra.
Defined.

Lemma geometric_vanishes (r c eps : R) :
  Rabs r < 1 -> 0 < eps ->
  exists N : nat, forall n : nat, (N <= n)%nat -> Rabs (r ^ n * c) < eps.
Proof.
  intros Hr Heps.
  destruct (Req_dec_T c 0) as [->|Hc].
  - exists 0%nat; intros n _.
    rewrite Rmult_0_r, Rabs_R0; exact Heps.
  - assert (Hpos : 0 < Rabs c) by (apply Rabs_pos_lt; exact Hc).
    destruct (pow_lt_1_zero r Hr (eps / Rabs c)) as (N & HN).
    { apply Rdiv_lt_0_compat; assumption. }
    exists N; intros n Hn.
    rewrite Rabs_mult.
    assert (Hsmall : Rabs (r ^ n) < eps / Rabs c) by (apply HN; lia).
    apply (Rmult_lt_compat_r (Rabs c)) in Hsmall; [|exact Hpos].
    replace (eps / Rabs c * Rabs c) with eps in Hsmall
      by (field; apply Rgt_not_eq; exact Hpos).
    exact Hsmall.
Qed.

(** X11: ACRO rate tracking converges.  For a timestep with 0 < dt < 0.2,
    holding the sticks still (centred included) and with nothing to hit, the
    angular velocity comes and stays as close to its target as one likes
    after enough frames. *)
Theorem acro_rate_converges (d : Drone.t) (dt : R) (input : InputState.t)
    (rnd : Draws) (eps : R) :
  Drone.mode d = ACRO ->
  0 < dt < 0.2 ->
  0 < eps ->
  let target := Drone.targetAngularVel d input in
  exists N : nat,
    forall n : nat,
      (N <= n)%nat ->
      let w := Drone.angularVelocity (fly n d dt input rnd) in
      Rabs (Vector3.x w - Vector3.x target) < eps /\
      Rabs (Vector3.y w - Vector3.y target) < eps /\
      Rabs (Vector3.z w - Vector3.z target) < eps.
Proof.
  intros Hmode Hdt Heps target.
  assert (Hr : Rabs (1 - dt * 10) < 1) by (apply Rabs_def1; lra).
  set (w0 := Drone.angularVelocity d).
  destruct (geometric_vanishes _ (Vector3.x w0 - Vector3.x target) eps
              Hr Heps) as (Nx & HNx).
  destruct (geometric_vanishes _ (Vector3.y w0 - Vector3.y target) eps
              Hr Heps) as (Ny & HNy).
  destruct (geometric_vanishes _ (Vector3.z w0 - Vector3.z target) eps
              Hr Heps) as (Nz & HNz).
  exists (Nx + Ny + Nz)%nat; intros n Hn w.
  destruct (fly_acro_error n d dt input rnd Hmode) as (Hx & Hy & Hz).
  fold target in Hx, Hy, Hz; fold w in Hx, Hy, Hz; fold w0 in Hx, Hy, Hz.
  rewrite Hx, Hy, Hz.
  split; [apply HNx; lia|].
  split; [apply HNy; lia|apply HNz; lia].
Qed.

(** Full pitch from rest at 60 frames a second: the pitch rate starts 8
    away from its target 8 and ends within a thousandth of it; yaw and roll
    stay on their target 0. *)
Lemma acro_rate_converges_witness :
  Vector3.x (Drone.angularVelocity Drone.new)
  - Vector3.x (Drone.targetAngularVel Drone.new fullPitch) = -8 /\
  exists N : nat,
    forall n : nat,
      (N <= n)%nat ->
      let w := Drone.angularVelocity (fly n Drone.new 0.016 fullPitch
                                        evenDraws) in
      Rabs (Vector3.x w - 8) < 0.001 /\
      Rabs (Vector3.y w - 0) < 0.001 /\
      Rabs (Vector3.z w - 0) < 0.001.
Proof.
  split; [cbn; lra|].
  destruct (acro_rate_converges Drone.new 0.016 fullPitch evenDraws 0.001)
    as (N & HN); [reflexivity|lra|lra|].
  exists N; intros n Hn w.
  specialize (HN n Hn); cbn in HN.
  replace (1 * 8.0) with 8 in HN by lra.
  replace (0 * 8.0) with 0 in HN by lra.
  exact HN.
Defined.

(** ** LEVEL: an upright drone stays upright *)

Lemma euler_of_upright (q : Quaternion.t) :
  upright q ->
  Euler.x (Euler.setFromQuaternionYXZ q) = 0 /\
  Euler.z (Euler.setFromQuaternionYXZ q) = 0.
Proof.
  destruct q as [qx qy qz qw]; intros [Hx Hz]; cbn in Hx, Hz; subst qx qz.
  unfold Euler.setFromQuaternionYXZ; cbn.
  replace (qy * (0 + 0) - qw * (0 + 0)) with 0 by ring.
  replace (0 * (qy + qy) + qw * (0 + 0)) with 0 by ring.
  replace (1 - (0 * (0 + 0) + 0 * (0 + 0))) with 1 by ring.
  assert (Hclamp : Euler.clamp 0 (-1) 1 = 0).
  { unfold Euler.clamp; rewrite Rmin_right by lra; apply Rmax_right; lra. }
  assert (Hatan : Euler.atan2 0 1 = 0).
  { unfold Euler.atan2; destruct (Rlt_dec 0 1); [|lra].
    replace (0 / 1) with 0 by field; exact atan_0. }
  destruct (Rlt_dec _ _) as [_|Hbig]; cbn.
  - rewrite Hclamp, Ropp_0, asin_0, Hatan; split; reflexivity.
  - exfalso; apply Hbig; rewrite Rabs_R0; lra.
Qed.

Lemma rotateOnAxis_by_zero (o : Object3D.t) (axis : Vector3.t) (angle : R) :
  angle = 0 ->
  Object3D.rotateOnAxis o axis angle = o.
Proof.
  intros ->; destruct o as [p [qx qy qz qw]].
  unfold Object3D.rotateOnAxis, Quaternion.setFromAxisAngle,
    Quaternion.multiply; cbn.
  replace (0 / 2) with 0 by field; rewrite sin_0, cos_0.
  do 2 f_equal; ring.
Qed.

Lemma rotateY_upright (o : Object3D.t) (angle : R) :
  upright (Object3D.quaternion o) ->
  upright (Object3D.quaternion (Object3D.rotateY o angle)).
Proof.
  destruct o as [p [qx qy qz qw]]; intros [Hx Hz]; cbn in Hx, Hz.
  subst qx qz; split; cbn; ring.
Qed.

Lemma thrust_of_upright (q : Quaternion.t) :
  upright q ->
  Quaternion.applyTo (Vector3.mk 0 1 0) q = Vector3.mk 0 1 0.
Proof.
  destruct q as [qx qy qz qw]; intros [Hx Hz]; cbn in Hx, Hz; subst qx qz.
  unfold Quaternion.applyTo; cbn; f_equal; ring.
Qed.

Lemma level_rates_of_upright (d : Drone.t) (dt : R) (input : InputState.t) :
  Drone.mode d = LEVEL ->
  upright (Object3D.quaternion (Drone.mesh d)) ->
  InputState.pitch input = 0 ->
  InputState.roll input = 0 ->
  Drone.angularVelocity (Drone.rotationLogic d dt input)
  = Vector3.mk 0 (InputState.yaw input * Drone.acroRate d) 0.
Proof.
  intros Hmode Hup Hpitch Hroll.
  destruct (euler_of_upright _ Hup) as (Hex & Hez).
  unfold Drone.rotationLogic; rewrite Hmode; cbn.
  rewrite Hex, Hez, Hpitch, Hroll; f_equal; ring.
Qed.

Lemma applyRotation_upright (d : Drone.t) (dt : R) (input : InputState.t) :
  Drone.mode d = LEVEL ->
  upright (Object3D.quaternion (Drone.mesh d)) ->
  InputState.pitch input = 0 ->
  InputState.roll input = 0 ->
  upright
    (Object3D.quaternion
       (Drone.mesh (Drone.applyRotation (Drone.rotationLogic d dt input) dt))).
Proof.
  intros Hmode Hup Hpitch Hroll.
  unfold Drone.applyRotation; cbn [Drone.mesh Drone.with_mesh].
  rewrite (level_rates_of_upright d dt input Hmode Hup Hpitch Hroll).
  cbn [Vector3.x Vector3.y Vector3.z].
  unfold Object3D.rotateX, Object3D.rotateZ.
  rewrite (rotateOnAxis_by_zero _ Object3D.zAxis) by ring.
  rewrite (rotateOnAxis_by_zero _ Object3D.xAxis) by ring.
  apply rotateY_upright; rewrite rotationLogic_mesh; exact Hup.
Qed.

Lemma update_quaternion (d : Drone.t) (dt : R) (input : InputState.t)
    (collidables : list Collidable) (rnd : Draws) :
  Object3D.quaternion (Drone.mesh (Drone.update d dt input collidables rnd))
  = Object3D.quaternion
      (Drone.mesh (Drone.applyRotation (Drone.rotationLogic d dt input) dt)).
Proof.
  unfold Drone.update; rewrite groundCollision_quaternion.
  unfold Drone.beforeGroundCollision, Drone.updatePosition;
    cbn [Drone.mesh Drone.with_mesh Object3D.quaternion].
  rewrite checkCollisions_mesh; reflexivity.
Qed.

Lemma level_upright_step (d : Drone.t) (dt : R) (input : InputState.t)
    (collidables : list Collidable) (rnd : Draws) :
  Drone.mode d = LEVEL ->
  upright (Object3D.quaternion (Drone.mesh d)) ->
  InputState.pitch input = 0 ->
  InputState.roll input = 0 ->
  upright
    (Object3D.quaternion
       (Drone.mesh (Drone.update d dt input collidables rnd))) /\
  Drone.thrustForce (Drone.applyRotation (Drone.rotationLogic d dt input) dt)
    input
  = Vector3.mk 0 (InputState.thrust input * Drone.maxThrust d) 0.
Proof.
  intros Hmode Hup Hpitch Hroll.
  pose proof (applyRotation_upright d dt input Hmode Hup Hpitch Hroll)
    as Hrot.
  split.
  - rewrite update_quaternion; exact Hrot.
  - unfold Drone.thrustForce.
    rewrite (thrust_of_upright _ Hrot).
    unfold Vector3.multiplyScalar, Drone.applyRotation, Drone.rotationLogic.
    rewrite Hmode; cbn; f_equal; ring.
Qed.

(** X12: LEVEL keeps an upright drone upright.  In LEVEL mode, if the
    orientation is a pure rotation about the vertical axis and the pitch and
    roll sticks are centred, then after [update] (any dt, yaw, thrust,
    collidables, draws; crashes included) the orientation is again a pure
    rotation about the vertical axis, and the thrust applied during the
    frame points straight up: (0, thrust * maxThrust, 0). *)
Theorem level_keeps_upright (d : Drone.t) (dt : R) (input : InputState.t)
    (collidables : list Collidable) (rnd : Draws) :
  Drone.mode d = LEVEL ->
  upright (Object3D.quaternion (Drone.mesh d)) ->
  InputState.pitch input = 0 ->
  InputState.roll input = 0 ->
  upright
    (Object3D.quaternion
       (Drone.mesh (Drone.update d dt input collidables rnd))) /\
  Drone.thrustForce (Drone.applyRotation (Drone.rotationLogic d dt input) dt)
    input
  = Vector3.mk 0 (InputState.thrust input * Drone.maxThrust d) 0.
Proof. exact (level_upright_step d dt input collidables rnd). Qed.

Lemma level_keeps_upright_witness :
  let d := Drone.setMode Drone.new LEVEL in
  let input := InputState.mk 0.5 1 0 0 false in
  upright
    (Object3D.quaternion
       (Drone.mesh (Drone.update d 0.016 input [wallAt 0.3] evenDraws))) /\
  Drone.thrustForce (Drone.applyRotation (Drone.rotationLogic d 0.016 input)
                       0.016) input
  = Vector3.mk 0 (0.5 * 30.0) 0.
Proof.
  intros d input.
  apply (level_keeps_upright d 0.016 input [wallAt 0.3] evenDraws).
  - reflexivity.
  - split; reflexivity.
  - reflexivity.
  - reflexivity.
Defined.

Lemma length_zero : Vector3.length Vector3.zero = 0.
Proof.
  unfold Vector3.length; cbn.
  replace (0 * 0 + 0 * 0 + 0 * 0) with 0 by ring; exact sqrt_0.
Qed.

Lemma checkCollisions_slow (d : Drone.t) (dt : R)
    (collidables : list Collidable) (rnd : Draws) :
  Vector3.length (Drone.velocity d) <= 0.1 ->
  Drone.checkCollisions d dt collidables rnd = d.
Proof.
  intros Hslow; apply checkCollisions_no_crash.
  intros (_ & Hfast & _); lra.
Qed.

(** X13: hover.  In LEVEL mode, an upright drone at rest, at or above the
    ground clearance, with pitch and roll centred and the throttle set so
    that thrust * maxThrust cancels gravity, keeps its position and stays at
    rest through [update], whatever dt, yaw and the collidables. *)
Theorem level_hover (d : Drone.t) (dt : R) (input : InputState.t)
    (collidables : list Collidable) (rnd : Draws) :
  Drone.mode d = LEVEL ->
  upright (Object3D.quaternion (Drone.mesh d)) ->
  InputState.pitch input = 0 ->
  InputState.roll input = 0 ->
  Drone.velocity d = Vector3.zero ->
  InputState.thrust input * Drone.maxThrust d + Drone.gravity d = 0 ->
  0.2 <= Vector3.y (Object3D.position (Drone.mesh d)) ->
  let d' := Drone.update d dt input collidables rnd in
  Object3D.position (Drone.mesh d') = Object3D.position (Drone.mesh d) /\
  Drone.velocity d' = Vector3.zero.
Proof.
  intros Hmode Hup Hpitch Hroll Hrest Hthrust Hhigh d'.
  destruct (level_upright_step d dt input collidables rnd
              Hmode Hup Hpitch Hroll) as (_ & Hforce).
  assert (Hvel :
    Drone.velocity (Drone.beforeCollisionCheck d dt input) = Vector3.zero).
  { unfold Drone.beforeCollisionCheck, Drone.updateVelocity,
      Drone.acceleration.
    rewrite Hforce.
    cbn [Drone.velocity Drone.with_velocity Drone.applyRotation
         Drone.with_mesh Drone.gravity Drone.drag].
    rewrite rotationLogic_velocity, Hrest.
    unfold Drone.rotationLogic; rewrite Hmode.
    cbn [Drone.gravity Drone.drag Drone.with_angularVelocity].
    unfold Vector3.add, Vector3.multiplyScalar, Vector3.zero;
      cbn [Vector3.x Vector3.y Vector3.z].
    f_equal; try ring.
    replace (0 + InputState.thrust input * Drone.maxThrust d)
      with (InputState.thrust input * Drone.maxThrust d) by ring.
    rewrite (Rplus_comm (Drone.gravity d)), Hthrust; ring. }
  assert (Hmoving :
    Drone.checkCollisions (Drone.beforeCollisionCheck d dt input) dt
      collidables rnd
    = Drone.beforeCollisionCheck d dt input).
  { apply checkCollisions_slow; rewrite Hvel, length_zero; lra. }
  assert (Hpos :
    Object3D.position
      (Drone.mesh (Drone.beforeGroundCollision d dt input collidables rnd))
    = Object3D.position (Drone.mesh d)).
  { rewrite beforeGroundCollision_position, Hmoving, Hvel.
    destruct (Object3D.position (Drone.mesh d)) as [px py pz].
    unfold Vector3.add, Vector3.multiplyScalar, Vector3.zero; cbn.
    f_equal; ring. }
  unfold d', Drone.update.
  rewrite groundCollision_off by (rewrite Hpos; exact Hhigh).
  split; [exact Hpos|].
  unfold Drone.beforeGroundCollision, Drone.updatePosition.
  cbn [Drone.velocity Drone.with_mesh].
  rewrite Hmoving; exact Hvel.
Qed.

Lemma level_hover_witness :
  let d := Drone.setMode Drone.new LEVEL in
  let input := InputState.mk 0.327 1 0 0 false in
  let d' := Drone.update d 0.016 input [wallAt 0.3] evenDraws in
  Object3D.position (Drone.mesh d') = Vector3.mk 0 2 0 /\
  Drone.velocity d' = Vector3.zero.
Proof.
  intros d input.
  apply (level_hover d 0.016 input [wallAt 0.3] evenDraws).
  - reflexivity.
  - split; reflexivity.
  - reflexivity.
  - reflexivity.
  - reflexivity.
  - cbn; lra.
  - cbn; lra.
Defined.

(** ** Free fall *)

(** X14: with the throttle at zero the velocity entering the collision
    check obeys linear drag and gravity only: each horizontal component is
    multiplied by (1 - drag dt), and the gap between the vertical velocity
    and the terminal velocity gravity / drag is multiplied by (1 - drag dt)
    too, whatever the orientation and the other sticks. *)
Theorem free_fall_terminal_velocity (d : Drone.t) (dt : R)
    (input : InputState.t) :
  InputState.thrust input = 0 ->
  Drone.drag d <> 0 ->
  let v := Drone.velocity d in
  let v' := Drone.velocity (Drone.beforeCollisionCheck d dt input) in
  let terminal := Drone.gravity d / Drone.drag d in
  Vector3.x v' = (1 - Drone.drag d * dt) * Vector3.x v /\
  Vector3.y v' - terminal
  = (1 - Drone.drag d * dt) * (Vector3.y v - terminal) /\
  Vector3.z v' = (1 - Drone.drag d * dt) * Vector3.z v.
Proof.
  intros Hthrust Hdrag v v' terminal.
  unfold v', terminal, Drone.beforeCollisionCheck, Drone.updateVelocity,
    Drone.acceleration, Drone.thrustForce.
  rewrite Hthrust.
  cbn [Drone.velocity Drone.with_velocity Drone.applyRotation
       Drone.with_mesh Drone.gravity Drone.drag Drone.maxThrust].
  rewrite rotationLogic_velocity; fold v.
  assert (Hg : Drone.gravity (Drone.rotationLogic d dt input)
               = Drone.gravity d).
  { unfold Drone.rotationLogic; destruct (Drone.mode d); reflexivity. }
  assert (Hd : Drone.drag (Drone.rotationLogic d dt input) = Drone.drag d).
  { unfold Drone.rotationLogic; destruct (Drone.mode d); reflexivity. }
  rewrite Hg, Hd.
  unfold Vector3.add, Vector3.multiplyScalar;
    cbn [Vector3.x Vector3.y Vector3.z].
  repeat split; try ring.
  field; exact Hdrag.
Qed.

Lemma free_fall_terminal_velocity_witness :
  let v' :=
    Drone.velocity (Drone.beforeCollisionCheck Drone.new 0.1 sticksCentred) in
  Vector3.y v' - (-9.81 / 0.5) = (1 - 0.5 * 0.1) * (0 - (-9.81 / 0.5)).
Proof.
  intros v'.
  destruct (free_fall_terminal_velocity Drone.new 0.1 sticksCentred)
    as (_ & Hy & _); [reflexivity|cbn; lra|].
  exact Hy.
Defined.

(** ** Unit orientations keep lengths *)

Lemma applyTo_lengthSq (v : Vector3.t) (q : Quaternion.t) :
  Quaternion.lengthSq q = 1 ->
  let v' := Quaternion.applyTo v q in
  Vector3.x v' * Vector3.x v' + Vector3.y v' * Vector3.y v'
  + Vector3.z v' * Vector3.z v'
  = Vector3.x v * Vector3.x v + Vector3.y v * Vector3.y v
    + Vector3.z v * Vector3.z v.
Proof.
  destruct v as [a b c], q as [qx qy qz qw].
  unfold Quaternion.lengthSq, Quaternion.applyTo; cbn.
  intros Hunit; nsatz.
Qed.

Lemma applyTo_length (v : Vector3.t) (q : Quaternion.t) :
  Quaternion.length q = 1 ->
  Vector3.length (Quaternion.applyTo v q) = Vector3.length v.
Proof.
  intros Hunit; apply length_one_iff in Hunit.
  unfold Vector3.length; f_equal.
  exact (applyTo_lengthSq v q Hunit).
Qed.

Lemma length_multiplyScalar (v : Vector3.t) (s : R) :
  Vector3.length (Vector3.multiplyScalar v s) = Rabs s * Vector3.length v.
Proof.
  unfold Vector3.length, Vector3.multiplyScalar; cbn.
  replace (Vector3.x v * s * (Vector3.x v * s)
           + Vector3.y v * s * (Vector3.y v * s)
           + Vector3.z v * s * (Vector3.z v * s))
    with (s² * (Vector3.x v * Vector3.x v + Vector3.y v * Vector3.y v
                + Vector3.z v * Vector3.z v))
    by (unfold Rsqr; ring).
  rewrite sqrt_mult.
  - rewrite sqrt_Rsqr_abs; reflexivity.
  - apply Rle_0_sqr.
  - pose proof (Rle_0_sqr (Vector3.x v)) as Hx; unfold Rsqr in Hx.
    pose proof (Rle_0_sqr (Vector3.y v)) as Hy; unfold Rsqr in Hy.
    pose proof (Rle_0_sqr (Vector3.z v)) as Hz; unfold Rsqr in Hz.
    lra.
Qed.

Lemma applyRotation_quaternion_length (d : Drone.t) (dt : R)
    (input : InputState.t) :
  Quaternion.length
    (Object3D.quaternion
       (Drone.mesh (Drone.applyRotation (Drone.rotationLogic d dt input) dt)))
  = Quaternion.length (Object3D.quaternion (Drone.mesh d)).
Proof.
  rewrite <- (update_quaternion d dt input [] (mkDraws 0 0 0)).
  apply update_quaternion_length.
Qed.

(** X15: with a unit-norm orientation, the thrust acceleration [update]
    applies has magnitude |thrust * maxThrust|, whatever the attitude. *)
Theorem thrust_magnitude (d : Drone.t) (dt : R) (input : InputState.t) :
  Quaternion.length (Object3D.quaternion (Drone.mesh d)) = 1 ->
  Vector3.length
    (Drone.thrustForce
       (Drone.applyRotation (Drone.rotationLogic d dt input) dt) input)
  = Rabs (InputState.thrust input * Drone.maxThrust d).
Proof.
  intros Hunit.
  unfold Drone.thrustForce.
  rewrite length_multiplyScalar, applyTo_length
    by (rewrite applyRotation_quaternion_length; exact Hunit).
  assert (Hmax :
    Drone.maxThrust (Drone.applyRotation (Drone.rotationLogic d dt input) dt)
    = Drone.maxThrust d).
  { unfold Drone.applyRotation, Drone.rotationLogic.
    destruct (Drone.mode d); reflexivity. }
  rewrite Hmax.
  unfold Vector3.length; cbn.
  replace (0 * 0 + 1 * 1 + 0 * 0) with 1 by ring.
  rewrite sqrt_1; ring.
Qed.

Lemma thrust_magnitude_witness :
  Vector3.length
    (Drone.thrustForce
       (Drone.applyRotation
          (Drone.rotationLogic Drone.new 0.016
             (InputState.mk 0.5 0.3 1 (-1) false)) 0.016)
       (InputState.mk 0.5 0.3 1 (-1) false))
  = Rabs (0.5 * 30.0).
Proof.
  apply (thrust_magnitude Drone.new 0.016
           (InputState.mk 0.5 0.3 1 (-1) false)).
  apply length_one_iff; unfold Quaternion.lengthSq; cbn; lra.
Defined.

Lemma updateCamera_pose (d : Drone.t) :
  Quaternion.length (Object3D.quaternion (Drone.mesh d)) = 1 ->
  let camera := Drone.updateCamera d in
  Object3D.quaternion camera = Object3D.quaternion (Drone.mesh d) /\
  exists offset,
    Object3D.position camera
    = Vector3.add (Object3D.position (Drone.mesh d)) offset /\
    Vector3.length offset = sqrt 0.05.
Proof.
  intros Hunit camera.
  split; [reflexivity|].
  exists (Quaternion.applyTo (Vector3.mk 0 0.1 (-0.2))
            (Object3D.quaternion (Drone.mesh d))).
  split; [reflexivity|].
  rewrite applyTo_length by exact Hunit.
  unfold Vector3.length; cbn; f_equal; lra.
Qed.

(** X16: the camera rides with the drone.  [updateCamera] gives the camera
    the drone's orientation and, when that orientation has unit norm, puts
    it at the fixed distance sqrt(0.05) (the length of the offset
    (0, 0.1, -0.2)) from the drone's position. *)
Theorem camera_rides_with_drone (d : Drone.t) :
  Quaternion.length (Object3D.quaternion (Drone.mesh d)) = 1 ->
  let camera := Drone.updateCamera d in
  Object3D.quaternion camera = Object3D.quaternion (Drone.mesh d) /\
  exists offset,
    Object3D.position camera
    = Vector3.add (Object3D.position (Drone.mesh d)) offset /\
    Vector3.length offset = sqrt 0.05.
Proof. exact (updateCamera_pose d). Qed.

Lemma camera_rides_with_drone_witness :
  let camera := Drone.updateCamera Drone.new in
  Object3D.quaternion camera = Quaternion.identity /\
  exists offset,
    Object3D.position camera = Vector3.add (Vector3.mk 0 2 0) offset /\
    Vector3.length offset = sqrt 0.05.
Proof.
  apply (camera_rides_with_drone Drone.new).
  apply length_one_iff; unfold Quaternion.lengthSq; cbn; lra.
Defined.

(** ** Crashes *)

Lemma crash_halves_speed (d : Drone.t) (dt : R)
    (collidables : list Collidable) (rnd : Draws) :
  Drone.crashes d dt collidables ->
  Vector3.length (Drone.velocity (Drone.checkCollisions d dt collidables rnd))
  = Vector3.length (Drone.velocity d) / 2.
Proof.
  intros Hcrash.
  rewrite checkCollisions_crash by exact Hcrash.
  unfold Drone.crash; cbn [Drone.velocity Drone.with_velocity
                           Drone.with_angularVelocity].
  rewrite length_multiplyScalar, Rabs_left by lra.
  lra.
Qed.

(** The sorted hit list: same elements, nearest first. *)
Lemma insertAsc_In (d x : R) (l : list R) :
  In x (Raycaster.insertAsc d l) <-> x = d \/ In x l.
Proof.
  induction l as [|e l IH]; cbn.
  - intuition.
  - destruct (Rle_dec d e); cbn; [intuition|].
    rewrite IH; intuition.
Qed.

Lemma sortAsc_In (x : R) (l : list R) :
  In x (Raycaster.sortAsc l) <-> In x l.
Proof.
  unfold Raycaster.sortAsc; induction l as [|e l IH]; cbn; [reflexivity|].
  rewrite insertAsc_In, IH; intuition.
Qed.

Lemma insertAsc_head_least (d : R) (l : list R) :
  (forall m rest, l = m :: rest -> forall e, In e l -> m <= e) ->
  forall m rest,
    Raycaster.insertAsc d l = m :: rest ->
    forall e, In e (Raycaster.insertAsc d l) -> m <= e.
Proof.
  intros Hl m rest Hins e He.
  apply insertAsc_In in He.
  destruct l as [|a l']; cbn in Hins.
  - injection Hins as <- <-; destruct He as [->|[]]; lra.
  - specialize (Hl a l' eq_refl).
    destruct (Rle_dec d a) as [Hle|Hgt].
    + injection Hins as <- <-.
      destruct He as [->|He]; [lra|].
      specialize (Hl e He); lra.
    + injection Hins as <- <-.
      destruct He as [->|He]; [lra|exact (Hl e He)].
Qed.

Lemma sortAsc_head_least (l : list R) :
  forall m rest,
    Raycaster.sortAsc l = m :: rest -> forall e, In e l -> m <= e.
Proof.
  induction l as [|a l IH]; intros m rest Hsort e He; [destruct He|].
  change (Raycaster.sortAsc (a :: l))
    with (Raycaster.insertAsc a (Raycaster.sortAsc l)) in Hsort.
  apply (insertAsc_head_least a (Raycaster.sortAsc l)) with (rest := rest).
  - intros m' rest' Hl e' He'.
    apply (IH m' rest' Hl); apply sortAsc_In; exact He'.
  - exact Hsort.
  - apply insertAsc_In; destruct He as [->|He]; [left; reflexivity|].
    right; apply sortAsc_In; exact He.
Qed.

(** X17: any hit counts, not only the first object's.  When the drone is
    faster than 0.1 and some collidable, anywhere in the list, reports a hit
    on the ray along the velocity at a distance below the look-ahead
    max(collisionRadius, speed * dt * 2), the collision check takes the crash
    branch; the speed is halved. *)
Theorem any_close_hit_crashes (d : Drone.t) (dt : R)
    (collidables : list Collidable) (rnd : Draws) (c : Collidable)
    (distance : R) :
  0.1 < Vector3.length (Drone.velocity d) ->
  In c collidables ->
  In distance
    (c (Object3D.position (Drone.mesh d))
       (Vector3.normalize (Drone.velocity d))) ->
  distance < Drone.lookAhead d dt ->
  Drone.checkCollisions d dt collidables rnd = Drone.crash d rnd /\
  Vector3.length (Drone.velocity (Drone.checkCollisions d dt collidables rnd))
  = Vector3.length (Drone.velocity d) / 2.
Proof.
  intros Hfast Hc Hhit Hnear.
  assert (Hcrash : Drone.crashes d dt collidables).
  { split; [intros ->; destruct Hc|].
    split; [exact Hfast|].
    assert (Hin : In distance (Drone.intersects d collidables)).
    { unfold Drone.intersects, Raycaster.intersectObjects.
      apply sortAsc_In, in_flat_map; exists c; split; assumption. }
    destruct (Drone.intersects d collidables) as [|m rest] eqn:Hsorted;
      [destruct Hin|].
    exists m, rest; split; [reflexivity|].
    unfold Drone.intersects, Raycaster.intersectObjects in Hsorted.
    assert (Hle : m <= distance).
    { apply (sortAsc_head_least _ m rest Hsorted).
      apply in_flat_map; exists c; split; assumption. }
    unfold Drone.lookAhead in Hnear; lra. }
  split; [apply checkCollisions_crash; exact Hcrash|].
  apply crash_halves_speed; exact Hcrash.
Qed.

Lemma any_close_hit_crashes_witness :
  let d := Drone.beforeCollisionCheck Drone.new 1 sticksCentred in
  let collidables := [wallAt 40; wallAt 0.3] in
  Drone.checkCollisions d 1 collidables evenDraws = Drone.crash d evenDraws /\
  Vector3.length
    (Drone.velocity (Drone.checkCollisions d 1 collidables evenDraws))
  = Vector3.length (Drone.velocity d) / 2.
Proof.
  intros d collidables.
  apply (any_close_hit_crashes d 1 collidables evenDraws (wallAt 0.3) 0.3).
  - apply speed_at_least_y; [lra|].
    unfold d; rewrite new_free_fall; cbn; lra.
  - right; left; reflexivity.
  - left; reflexivity.
  - unfold Drone.lookAhead.
    eapply Rlt_le_trans; [|apply Rmax_l]. cbn; lra.
Defined.

(** X18: no crash without a close hit.  If the drone is no faster than 0.1,
    or every hit any collidable reports on the ray along the velocity is at
    least the look-ahead away, the collision check changes nothing. *)
Theorem no_close_hit_no_crash (d : Drone.t) (dt : R)
    (collidables : list Collidable) (rnd : Draws) :
  Vector3.length (Drone.velocity d) <= 0.1 \/
  (forall c distance,
     In c collidables ->
     In distance
       (c (Object3D.position (Drone.mesh d))
          (Vector3.normalize (Drone.velocity d))) ->
     Drone.lookAhead d dt <= distance) ->
  Drone.checkCollisions d dt collidables rnd = d.
Proof.
  intros [Hslow|Hfar]; [apply checkCollisions_slow; exact Hslow|].
  apply checkCollisions_no_crash.
  intros (_ & _ & m & rest & Hsorted & Hnear).
  assert (Hin : In m (Drone.intersects d collidables))
    by (rewrite Hsorted; left; reflexivity).
  unfold Drone.intersects, Raycaster.intersectObjects in Hin.
  apply sortAsc_In, in_flat_map in Hin as (c & Hc & Hm).
  specialize (Hfar c m Hc Hm).
  unfold Drone.lookAhead in Hfar; lra.
Qed.

Lemma no_close_hit_no_crash_witness :
  let d := Drone.beforeCollisionCheck Drone.new 1 sticksCentred in
  Drone.checkCollisions d 1 [wallAt 40; wallAt 25] evenDraws = d.
Proof.
  intros d.
  apply (no_close_hit_no_crash d 1 [wallAt 40; wallAt 25] evenDraws).
  right; intros c distance Hc Hhit.
  assert (Hlook : Drone.lookAhead d 1 <= 20).
  { unfold Drone.lookAhead, d.
    apply Rmax_lub; [cbn; lra|].
    rewrite new_free_fall.
    assert (Hspeed : Vector3.length (Vector3.mk 0 (-9.81 * 1) 0) <= 10).
    { unfold Vector3.length; cbn.
      rewrite <- (sqrt_square 10) by lra.
      apply sqrt_le_1_alt; lra. }
    lra. }
  destruct Hc as [<-|[<-|[]]]; destruct Hhit as [<-|[]]; lra.
Defined.

(** * Properties of the audio manager *)

(** X19: motor sound ranges.  On an initialised, unmuted manager, [update]
    with a thrust in [0, 1] aims the oscillator within 100..800 Hz, the gain
    within 0.1..0.3 and the filter cutoff within 1000..5000 Hz. *)
Theorem audio_targets_in_range (a : AudioManager.t) (thrust : R)
    (g0 : AudioManager.Graph) :
  AudioManager.isInitialized a = true ->
  AudioManager.isMuted a = false ->
  AudioManager.graph a = Some g0 ->
  0 <= thrust <= 1 ->
  exists g,
    AudioManager.update a thrust
    = (Normal tt, AudioManager.mk (Some g) true false) /\
    100 <= AudioManager.oscillatorFrequency g <= 800 /\
    0.1 <= AudioManager.gain g <= 0.3 /\
    1000 <= AudioManager.filterFrequency g <= 5000.
Proof.
  intros Hinit Hmuted Hgraph Hthrust.
  unfold AudioManager.update; rewrite Hinit, Hmuted, Hgraph; cbn.
  eexists; split; [reflexivity|]; cbn.
  repeat split; lra.
Qed.

Lemma audio_targets_in_range_witness :
  exists g,
    AudioManager.update (AudioManager.init AudioManager.new) 0.5
    = (Normal tt, AudioManager.mk (Some g) true false) /\
    100 <= AudioManager.oscillatorFrequency g <= 800 /\
    0.1 <= AudioManager.gain g <= 0.3 /\
    1000 <= AudioManager.filterFrequency g <= 5000.
Proof.
  apply (audio_targets_in_range (AudioManager.init AudioManager.new) 0.5
           (AudioManager.mkGraph 440 0 1000)).
  - reflexivity.
  - reflexivity.
  - reflexivity.
  - lra.
Defined.

Lemma audio_stop_keeps (a : AudioManager.t) :
  AudioManager.wired a ->
  AudioManager.wired (AudioManager.stop a) /\
  AudioManager.silentWhenMuted (AudioManager.stop a) /\
  AudioManager.isMuted (AudioManager.stop a) = AudioManager.isMuted a.
Proof.
  intros Hwired.
  unfold AudioManager.silentWhenMuted, AudioManager.stop.
  destruct (AudioManager.graph a) as [g|] eqn:Hgraph.
  - split; [intros _; eexists; reflexivity|].
    split; [|reflexivity].
    intros _ g' Heq; injection Heq as <-; reflexivity.
  - split; [exact Hwired|].
    split; [|reflexivity].
    intros _ g' Heq; rewrite Hgraph in Heq; discriminate.
Qed.

Lemma audio_step_keeps (a : AudioManager.t) (c : AudioManager.call) :
  AudioManager.wired a ->
  AudioManager.silentWhenMuted a ->
  AudioManager.wired (AudioManager.step a c) /\
  AudioManager.silentWhenMuted (AudioManager.step a c).
Proof.
  intros Hwired Hsilent.
  destruct c as [|thrust| |]; cbn [AudioManager.step].
  - unfold AudioManager.init.
    destruct (AudioManager.isInitialized a) eqn:Hinit;
      [split; assumption|].
    split.
    + intros _; eexists; reflexivity.
    + intros _ g Heq; injection Heq as <-; reflexivity.
  - unfold AudioManager.update.
    destruct (AudioManager.isInitialized a) eqn:Hinit; cbn;
      [|split; assumption].
    destruct (AudioManager.isMuted a) eqn:Hmuted; cbn;
      [split; assumption|].
    destruct (AudioManager.graph a) as [g|]; cbn; [|split; assumption].
    split.
    + intros _; eexists; reflexivity.
    + unfold AudioManager.silentWhenMuted; cbn.
      intros Hm; rewrite ?Hmuted in Hm; discriminate.
  - destruct (audio_stop_keeps a Hwired) as (Hw & Hs & _).
    split; assumption.
  - unfold AudioManager.toggleMute.
    cbn [AudioManager.isMuted].
    destruct (AudioManager.isMuted a) eqn:Hmuted; cbn [negb].
    + split; [exact Hwired|].
      unfold AudioManager.silentWhenMuted; cbn; discriminate.
    + set (a' := AudioManager.mk (AudioManager.graph a)
                   (AudioManager.isInitialized a) true).
      destruct (audio_stop_keeps a' Hwired) as (Hw & Hs & _).
      split; assumption.
Qed.

Lemma audio_run_keeps (calls : list AudioManager.call) :
  forall a : AudioManager.t,
    AudioManager.wired a ->
    AudioManager.silentWhenMuted a ->
    AudioManager.wired (AudioManager.run a calls) /\
    AudioManager.silentWhenMuted (AudioManager.run a calls).
Proof.
  induction calls as [|c calls IH]; intros a Hwired Hsilent; cbn.
  - split; assumption.
  - destruct (audio_step_keeps a c Hwired Hsilent) as (Hw & Hs).
    apply IH; assumption.
Qed.

Lemma audio_update_normal (a : AudioManager.t) (thrust : R) :
  AudioManager.wired a ->
  fst (AudioManager.update a thrust) = Normal tt.
Proof.
  intros Hwired; unfold AudioManager.update.
  destruct (AudioManager.isInitialized a) eqn:Hinit; cbn; [|reflexivity].
  destruct (AudioManager.isMuted a); cbn; [reflexivity|].
  destruct (Hwired Hinit) as (g & ->); reflexivity.
Qed.

(** X20: muted means silent, and no call order breaks the manager.  After
    any sequence of [init], [update], [stop] and [toggleMute] calls on a new
    manager (so also [update], [stop] or [toggleMute] before [init]), a
    further [update] never throws, and whenever the manager is muted the gain
    is at or heading to 0. *)
Theorem audio_muted_is_silent (calls : list AudioManager.call) (thrust : R) :
  let a := AudioManager.run AudioManager.new calls in
  fst (AudioManager.update a thrust) = Normal tt /\
  AudioManager.silentWhenMuted a.
Proof.
  intros a.
  destruct (audio_run_keeps calls AudioManager.new) as (Hwired & Hsilent).
  - intros Hinit; discriminate.
  - intros _ g Hgraph; discriminate.
  - split; [apply audio_update_normal; exact Hwired|exact Hsilent].
Qed.

(** * Properties of the environment manager *)

(** Bring in the range of every draw the goal mentions. *)
Ltac bound_draws Hrandom :=
  unfold randomRange in Hrandom;
  repeat match goal with
         | |- context [?random ?k] =>
             lazymatch type of Hrandom with
             | forall j, 0 <= random j < 1 =>
                 lazymatch goal with
                 | _ : 0 <= random k < 1 |- _ => fail
                 | _ => pose proof (Hrandom k)
                 end
             end
         end.

(** X21: loading a map replaces the objects.  Whatever was loaded before and
    whatever the random draws, after [loadCity] there are exactly 56 objects
    (ground, 50 buildings, 5 gates), after [loadJungle] exactly 106 (ground,
    100 trees, 5 gates), and after [clear] none. *)
Theorem map_object_counts (random : nat -> R) (e : EnvironmentManager.t) :
  length (EnvironmentManager.objects (EnvironmentManager.loadCity random e))
  = 56%nat /\
  length (EnvironmentManager.objects (EnvironmentManager.loadJungle random e))
  = 106%nat /\
  EnvironmentManager.objects (EnvironmentManager.clear e) = [].
Proof.
  unfold EnvironmentManager.loadCity, EnvironmentManager.loadJungle,
    EnvironmentManager.addGates; cbn [EnvironmentManager.objects
                                      EnvironmentManager.clear app].
  repeat split; cbn [length];
    rewrite length_app, !length_map, !length_seq; reflexivity.
Qed.

(** X22: buildings stand on the ground.  With every [Math.random()] result
    in [0, 1), each building of the city (the unit boxes among the objects)
    has its centre at half its height, so its base is at y = 0; it is 20 to
    100 high, 10 to 30 wide and deep, and centred within 200 of the origin
    in x and z. *)
Theorem city_buildings_on_ground (random : nat -> R)
    (e : EnvironmentManager.t) (n : SceneNode) (position scale : Vector3.t)
    (rotation : Euler.t) :
  (forall k, randomRange (random k)) ->
  In n (EnvironmentManager.objects (EnvironmentManager.loadCity random e)) ->
  n = Mesh (BoxGeometry 1 1 1) position rotation scale ->
  Vector3.y position - Vector3.y scale / 2 = 0 /\
  20 <= Vector3.y scale < 100 /\
  10 <= Vector3.x scale < 30 /\
  10 <= Vector3.z scale < 30 /\
  -200 <= Vector3.x position < 200 /\
  -200 <= Vector3.z position < 200.
Proof.
  intros Hrandom Hin Hbox.
  unfold EnvironmentManager.loadCity in Hin;
    cbn [EnvironmentManager.objects EnvironmentManager.clear app] in Hin.
  destruct Hin as [Hground|Hin]; [subst n; discriminate|].
  apply in_app_or in Hin as [Hbuilding|Hgate].
  - apply in_map_iff in Hbuilding as (i & Hi & _).
    rewrite <- Hi in Hbox; unfold EnvironmentManager.building in Hbox.
    injection Hbox as <- _ <-; cbn [Vector3.x Vector3.y Vector3.z].
    bound_draws Hrandom.
    repeat split; lra.
  - apply in_map_iff in Hgate as (i & Hi & _).
    rewrite <- Hi in *; discriminate.
Qed.

Lemma city_buildings_on_ground_witness :
  let random := fun _ : nat => 0.5 in
  let b := EnvironmentManager.building random 7 in
  Vector3.y (nodePosition b) - Vector3.y (nodeScale b) / 2 = 0 /\
  20 <= Vector3.y (nodeScale b) < 100 /\
  10 <= Vector3.x (nodeScale b) < 30 /\
  10 <= Vector3.z (nodeScale b) < 30 /\
  -200 <= Vector3.x (nodePosition b) < 200 /\
  -200 <= Vector3.z (nodePosition b) < 200.
Proof.
  intros random b.
  apply (city_buildings_on_ground random EnvironmentManager.new b
           (nodePosition b) (nodeScale b) EnvironmentManager.noRotation).
  - intros k; unfold randomRange, random; lra.
  - unfold EnvironmentManager.loadCity;
      cbn [EnvironmentManager.objects EnvironmentManager.clear app].
    right; apply in_or_app; left.
    apply in_map_iff; exists 7%nat; split; [reflexivity|].
    apply in_seq; lia.
  - reflexivity.
Defined.

(** X23: trees.  With every [Math.random()] result in [0, 1), each tree of
    the jungle (the two-part groups among the objects: trunk and leaves)
    stands at height 0, within 200 of the origin in x and z, and is scaled
    uniformly by a factor of at least 1 and below 2. *)
Theorem jungle_trees_placed (random : nat -> R) (e : EnvironmentManager.t)
    (n trunk leaves : SceneNode) (position scale : Vector3.t)
    (rotation : Euler.t) :
  (forall k, randomRange (random k)) ->
  In n (EnvironmentManager.objects (EnvironmentManager.loadJungle random e)) ->
  n = Group [trunk; leaves] position rotation scale ->
  Vector3.y position = 0 /\
  -200 <= Vector3.x position < 200 /\
  -200 <= Vector3.z position < 200 /\
  1 <= Vector3.x scale < 2 /\
  Vector3.y scale = Vector3.x scale /\
  Vector3.z scale = Vector3.x scale.
Proof.
  intros Hrandom Hin Htree.
  unfold EnvironmentManager.loadJungle in Hin;
    cbn [EnvironmentManager.objects EnvironmentManager.clear app] in Hin.
  destruct Hin as [Hground|Hin]; [subst n; discriminate|].
  apply in_app_or in Hin as [Hin|Hgate].
  - apply in_map_iff in Hin as (i & Hi & _).
    rewrite <- Hi in Htree; unfold EnvironmentManager.tree in Htree.
    injection Htree as _ _ <- _ <-; cbn [Vector3.x Vector3.y Vector3.z].
    bound_draws Hrandom.
    repeat split; lra.
  - apply in_map_iff in Hgate as (i & Hi & _).
    rewrite <- Hi in *; discriminate.
Qed.

Lemma jungle_trees_placed_witness :
  let random := fun _ : nat => 0.25 in
  let t := EnvironmentManager.tree random 3 in
  Vector3.y (nodePosition t) = 0 /\
  -200 <= Vector3.x (nodePosition t) < 200 /\
  -200 <= Vector3.z (nodePosition t) < 200 /\
  1 <= Vector3.x (nodeScale t) < 2 /\
  Vector3.y (nodeScale t) = Vector3.x (nodeScale t) /\
  Vector3.z (nodeScale t) = Vector3.x (nodeScale t).
Proof.
  intros random t.
  eapply (jungle_trees_placed random EnvironmentManager.new t _ _
            (nodePosition t) (nodeScale t) EnvironmentManager.noRotation).
  - intros k; unfold randomRange, random; lra.
  - unfold EnvironmentManager.loadJungle;
      cbn [EnvironmentManager.objects EnvironmentManager.clear app].
    right; apply in_or_app; left.
    apply in_map_iff; exists 3%nat; split; [reflexivity|].
    apply in_seq; lia.
  - reflexivity.
Defined.

(** * Properties of the game loop *)

Lemma quaternionFromEuler_zero :
  Object3D.quaternionFromEuler (Euler.mk 0 0 0) = Quaternion.identity.
Proof.
  unfold Object3D.quaternionFromEuler, Quaternion.identity; cbn.
  replace (0 / 2) with 0 by field; rewrite sin_0, cos_0.
  f_equal; ring.
Qed.

Lemma identity_length : Quaternion.length Quaternion.identity = 1.
Proof. apply length_one_iff; unfold Quaternion.lengthSq; cbn; ring. Qed.

Lemma resetDrone_pose (g : Game.t) :
  Drone.mesh (Game.drone (Game.resetDrone g))
  = Object3D.mk (Vector3.mk 0 2 0) Quaternion.identity.
Proof.
  unfold Game.resetDrone, Object3D.setRotation, Object3D.setPosition; cbn.
  rewrite quaternionFromEuler_zero; reflexivity.
Qed.

Section GameInvariant.

Variable raycast : SceneNode -> Collidable.

Lemma healthy_same_parts (g g' : Game.t) :
  healthy g ->
  Drone.mesh (Game.drone g') = Drone.mesh (Game.drone g) ->
  Game.audio g' = Game.audio g ->
  healthy g'.
Proof.
  unfold healthy; intros (Hnorm & Hy & Hwired & Hsilent) Hmesh Haudio.
  rewrite Hmesh, Haudio; repeat split; assumption.
Qed.

Lemma healthy_after_reset (g g' : Game.t) :
  AudioManager.wired (Game.audio g') ->
  AudioManager.silentWhenMuted (Game.audio g') ->
  Drone.mesh (Game.drone g')
  = Object3D.mk (Vector3.mk 0 2 0) Quaternion.identity ->
  healthy g'.
Proof.
  unfold healthy; intros Hwired Hsilent ->; cbn.
  split; [exact identity_length|].
  split; [lra|split; assumption].
Qed.

Lemma healthy_togglePause (g : Game.t) :
  healthy g -> healthy (Game.togglePause g).
Proof.
  unfold healthy, Game.togglePause; intros (Hnorm & Hy & Hwired & Hsilent).
  cbn; split; [exact Hnorm|]; split; [exact Hy|].
  destruct (negb (Game.isPaused g)); [|split; assumption].
  destruct (audio_stop_keeps _ Hwired) as (Hw & Hs & _); split; assumption.
Qed.

Lemma healthy_animate (g : Game.t) (gamepads : list (option Gamepad))
    (dt : R) (rnd : Draws) :
  healthy g -> healthy (snd (Game.animate raycast g gamepads dt rnd)).
Proof.
  intros Hg; unfold Game.animate.
  destruct (Game.isPlaying g); cbn [negb]; [|exact Hg].
  destruct (Game.isPaused g); [exact Hg|].
  destruct (InputHandler.getState gamepads (Game.input g)) as [polled h].
  destruct polled as [inputState|msg];
    [|apply (healthy_same_parts g); [exact Hg|reflexivity|reflexivity]].
  set (g2 := if InputState.toggleMode inputState
             then Game.toggleMode (Game.with_input g h)
             else Game.with_input g h).
  assert (Hg2 : healthy g2).
  { apply (healthy_same_parts g); [exact Hg| |];
      unfold g2; destruct (InputState.toggleMode inputState); reflexivity. }
  destruct Hg2 as (Hnorm & Hy & Hwired & Hsilent).
  set (d := Drone.update (Game.drone g2) dt inputState
              (map raycast (EnvironmentManager.objects (Game.envManager g2)))
              rnd).
  assert (Hd : Quaternion.length (Object3D.quaternion (Drone.mesh d)) = 1
               /\ 0.2 <= Vector3.y (Object3D.position (Drone.mesh d))).
  { split; [unfold d; rewrite update_quaternion_length; exact Hnorm|].
    apply update_above_ground. }
  cbn [Game.audio Game.with_drone].
  destruct (audio_step_keeps (Game.audio g2)
              (AudioManager.Update (InputState.thrust inputState))
              Hwired Hsilent) as (Hw & Hs).
  cbn [AudioManager.step] in Hw, Hs.
  destruct (AudioManager.update (Game.audio g2)
              (InputState.thrust inputState)) as [played a].
  cbn [snd] in Hw, Hs.
  destruct played as [[]|msg]; cbn; unfold healthy; cbn;
    (split; [exact (proj1 Hd)|split; [exact (proj2 Hd)|split; assumption]]).
Qed.

Lemma healthy_handle (g : Game.t) (e : Game.event) :
  healthy g -> healthy (Game.handle raycast g e).
Proof.
  intros Hg.
  destruct e as [gamepads dt rnd|code|code|gp|gp|mapType random| | | | |];
    cbn [Game.handle].
  - apply healthy_animate; exact Hg.
  - unfold Game.onKeyDown.
    destruct (_ && _); [apply healthy_togglePause|];
      apply (healthy_same_parts g); try exact Hg; reflexivity.
  - apply (healthy_same_parts g); [exact Hg|reflexivity|reflexivity].
  - apply (healthy_same_parts g); [exact Hg|reflexivity|reflexivity].
  - apply (healthy_same_parts g); [exact Hg|reflexivity|reflexivity].
  - destruct Hg as (_ & _ & Hwired & Hsilent).
    destruct (audio_step_keeps _ AudioManager.Init Hwired Hsilent)
      as (Hw & Hs).
    unfold Game.startGame.
    apply (healthy_after_reset g); [exact Hw|exact Hs|].
    apply resetDrone_pose.
  - apply healthy_togglePause; exact Hg.
  - unfold Game.restartGame; apply healthy_togglePause.
    destruct Hg as (_ & _ & Hwired & Hsilent).
    apply (healthy_after_reset g); [exact Hwired|exact Hsilent|].
    apply resetDrone_pose.
  - destruct Hg as (Hnorm & Hy & Hwired & Hsilent).
    destruct (audio_stop_keeps _ Hwired) as (Hw & Hs & _).
    unfold healthy, Game.quitToMenu; cbn.
    split; [exact Hnorm|split; [exact Hy|split; assumption]].
  - apply (healthy_same_parts g); [exact Hg|reflexivity|reflexivity].
  - destruct Hg as (Hnorm & Hy & Hwired & Hsilent).
    destruct (audio_step_keeps _ AudioManager.ToggleMute Hwired Hsilent)
      as (Hw & Hs).
    unfold healthy, Game.toggleSound; cbn.
    split; [exact Hnorm|split; [exact Hy|split; assumption]].
Qed.

Lemma healthy_run (events : list Game.event) :
  forall g : Game.t, healthy g -> healthy (Game.run raycast g events).
Proof.
  induction events as [|e events IH]; intros g Hg; cbn; [exact Hg|].
  apply IH, healthy_handle; exact Hg.
Qed.

Lemma healthy_new : healthy Game.new.
Proof.
  unfold healthy; cbn.
  split; [exact identity_length|].
  split; [lra|].
  split; [intros Hinit; discriminate|intros Hmuted; discriminate].
Qed.

End GameInvariant.

(** X24: the game keeps the drone sound, in exact real arithmetic and with
    gamepads that report the four axes of the standard layout (a double can
    overflow to NaN, and a missing axis reads as [undefined]: both are outside
    this statement).  From [new Game()], after any sequence of frames (any
    real dt, any such gamepad readings, any draws; frames that throw
    included), key and gamepad events, and menu clicks (start a map, resume,
    restart, quit, toggle mode, toggle sound), and for any ray casting: the
    drone's orientation has norm 1, its height is at least 0.2, the audio
    nodes exist if the audio manager is initialised, and the gain is at or
    heading to 0 whenever the sound is muted. *)
Theorem game_stays_healthy (raycast : SceneNode -> Collidable)
    (events : list Game.event) :
  healthy (Game.run raycast Game.new events).
Proof. apply healthy_run, healthy_new. Qed.

Section GameFrames.

Variable raycast : SceneNode -> Collidable.

(** What a frame of a running game does, when the poll returns. *)
Lemma animate_running (g : Game.t) (gamepads : list (option Gamepad))
    (dt : R) (rnd : Draws) (s : InputState.t) :
  Game.isPlaying g = true ->
  Game.isPaused g = false ->
  fst (InputHandler.getState gamepads (Game.input g)) = Normal s ->
  let g' := snd (Game.animate raycast g gamepads dt rnd) in
  let steered :=
    if InputState.toggleMode s
    then Drone.setMode (Game.drone g) (otherMode (Drone.mode (Game.drone g)))
    else Game.drone g in
  Game.drone g'
  = Drone.update steered dt s
      (map raycast (EnvironmentManager.objects (Game.envManager g))) rnd /\
  Game.input g' = snd (InputHandler.getState gamepads (Game.input g)) /\
  Game.audio g'
  = snd (AudioManager.update (Game.audio g) (InputState.thrust s)) /\
  Game.isPlaying g' = true /\
  Game.isPaused g' = false /\
  (fst (Game.animate raycast g gamepads dt rnd) = Normal tt ->
   Game.camera g' = Drone.updateCamera (Game.drone g')) /\
  fst (Game.animate raycast g gamepads dt rnd)
  = fst (AudioManager.update (Game.audio g) (InputState.thrust s)).
Proof.
  intros Hplaying Hpaused Hs; cbv zeta.
  unfold Game.animate; rewrite Hplaying, Hpaused; cbn [negb].
  destruct (InputHandler.getState gamepads (Game.input g)) as [polled h].
  cbn [fst] in Hs; subst polled; cbn [snd].
  destruct (InputState.toggleMode s);
    cbn [Game.toggleMode Game.with_drone Game.with_input Game.drone
         Game.envManager Game.audio];
    destruct (AudioManager.update (Game.audio g) (InputState.thrust s))
      as [played a];
    destruct played as [[]|msg]; cbn;
    repeat split;
    first [reflexivity | assumption
          | intros Hno; first [reflexivity | discriminate]].
Qed.


(** X26: a held pad button flips the mode every frame.  In a running game
    with a registered gamepad whose button 0 is down during two consecutive
    frames, the first frame switches the flight mode and the second switches
    it back. *)
Theorem held_pad_button_flips_mode_twice (g : Game.t) (i : nat)
    (gamepads1 gamepads2 : list (option Gamepad)) (gp1 gp2 : Gamepad)
    (rest1 rest2 : list bool) (dt1 dt2 : R) (rnd1 rnd2 : Draws) :
  Game.isPlaying g = true ->
  Game.isPaused g = false ->
  InputHandler.gamepadIndex (Game.input g) = Some i ->
  mjoin (gamepads1 !! i) = Some gp1 ->
  buttons gp1 = true :: rest1 ->
  mjoin (gamepads2 !! i) = Some gp2 ->
  buttons gp2 = true :: rest2 ->
  let g1 := snd (Game.animate raycast g gamepads1 dt1 rnd1) in
  let g2 := snd (Game.animate raycast g1 gamepads2 dt2 rnd2) in
  Drone.mode (Game.drone g1) = otherMode (Drone.mode (Game.drone g)) /\
  Drone.mode (Game.drone g2) = Drone.mode (Game.drone g).
Proof.
  intros Hplaying Hpaused Hidx Hgp1 Hb1 Hgp2 Hb2 g1 g2.
  assert (Hpoll :
    forall (h : InputHandler.t) gamepads gp rest,
      InputHandler.gamepadIndex h = Some i ->
      mjoin (gamepads !! i) = Some gp ->
      buttons gp = true :: rest ->
      exists s,
        fst (InputHandler.getState gamepads h) = Normal s /\
        InputState.toggleMode s = true).
  { intros h gamepads gp rest Hi Hgp Hb.
    rewrite (getState_gamepad gamepads h i gp Hi Hgp).
    unfold InputHandler.gamepadInput; rewrite Hb; cbn.
    eexists; split; reflexivity. }
  destruct (Hpoll _ _ _ _ Hidx Hgp1 Hb1) as (s1 & Hs1 & Ht1).
  destruct (animate_running g gamepads1 dt1 rnd1 s1 Hplaying Hpaused Hs1)
    as (Hd1 & Hi1 & _ & Hplaying1 & Hpaused1 & _).
  fold g1 in Hd1, Hi1, Hplaying1, Hpaused1.
  rewrite Ht1 in Hd1.
  assert (Hmode1 :
    Drone.mode (Game.drone g1) = otherMode (Drone.mode (Game.drone g)))
    by (rewrite Hd1, update_mode; reflexivity).
  assert (Hidx1 : InputHandler.gamepadIndex (Game.input g1) = Some i)
    by (rewrite Hi1; exact Hidx).
  destruct (Hpoll _ _ _ _ Hidx1 Hgp2 Hb2) as (s2 & Hs2 & Ht2).
  destruct (animate_running g1 gamepads2 dt2 rnd2 s2 Hplaying1 Hpaused1 Hs2)
    as (Hd2 & _).
  fold g2 in Hd2; rewrite Ht2 in Hd2.
  split; [exact Hmode1|].
  rewrite Hd2, update_mode; cbn [Drone.mode Drone.setMode].
  rewrite Hmode1; destruct (Drone.mode (Game.drone g)); reflexivity.
Qed.

(** X27: pause freezes the game, and a held M waits for the resume.  While
    the game is paused a frame changes nothing and polls nothing.  In a
    keyboard-only game, a keydown of M during the pause stays pending through
    paused frames.  If M is still down (no keyup yet) when the game resumes,
    the first frame after the resume switches the flight mode; if M is
    released during the pause, the request is lost and that frame leaves the
    mode as it was. *)
Theorem pause_keeps_pending_toggle (g : Game.t)
    (gamepads1 gamepads2 : list (option Gamepad)) (dt1 dt2 : R)
    (rnd1 rnd2 : Draws) :
  Game.isPlaying g = true ->
  Game.isPaused g = true ->
  InputHandler.gamepadIndex (Game.input g) = None ->
  let pressed := Game.onKeyDown g "KeyM" in
  let idle := snd (Game.animate raycast pressed gamepads1 dt1 rnd1) in
  let resumed := Game.togglePause idle in
  let released := Game.handle raycast idle (Game.KeyUp "KeyM") in
  let resumedLate := Game.togglePause released in
  idle = pressed /\
  Drone.mode
    (Game.drone (snd (Game.animate raycast resumed gamepads2 dt2 rnd2)))
  = otherMode (Drone.mode (Game.drone g)) /\
  Drone.mode
    (Game.drone (snd (Game.animate raycast resumedLate gamepads2 dt2 rnd2)))
  = Drone.mode (Game.drone g).
Proof.
  intros Hplaying Hpaused Hidx pressed idle resumed released resumedLate.
  assert (Hpressed :
    pressed = Game.with_input g (InputHandler.onKeyDown (Game.input g) "KeyM"))
    by reflexivity.
  assert (Hidle : idle = pressed).
  { unfold idle, Game.animate; rewrite Hpressed; cbn [Game.isPlaying
      Game.isPaused Game.with_input].
    rewrite Hplaying, Hpaused; reflexivity. }
  split; [exact Hidle|].
  split.
  - assert (Hs :
      fst (InputHandler.getState gamepads2 (Game.input resumed))
      = Normal (InputHandler.discreteMapping (Game.input resumed))).
    { apply getState_keyboard.
      unfold resumed; rewrite Hidle, Hpressed; cbn.
      rewrite onKeyDown_gamepadIndex; exact Hidx. }
    destruct (animate_running resumed gamepads2 dt2 rnd2 _
                ltac:(unfold resumed; rewrite Hidle, Hpressed; exact Hplaying)
                ltac:(unfold resumed; rewrite Hidle, Hpressed; cbn;
                      rewrite Hpaused; reflexivity)
                Hs) as (Hd & _).
    rewrite Hd, update_mode.
    unfold resumed; rewrite Hidle, Hpressed; reflexivity.
  - assert (Hreleased :
      released
      = Game.with_input g
          (InputHandler.onKeyUp
             (InputHandler.onKeyDown (Game.input g) "KeyM") "KeyM")).
    { unfold released; rewrite Hidle, Hpressed; reflexivity. }
    assert (Hs :
      fst (InputHandler.getState gamepads2 (Game.input resumedLate))
      = Normal (InputHandler.discreteMapping (Game.input resumedLate))).
    { apply getState_keyboard.
      unfold resumedLate; rewrite Hreleased; cbn.
      rewrite onKeyUp_gamepadIndex, onKeyDown_gamepadIndex; exact Hidx. }
    destruct (animate_running resumedLate gamepads2 dt2 rnd2 _
                ltac:(unfold resumedLate; rewrite Hreleased; exact Hplaying)
                ltac:(unfold resumedLate; rewrite Hreleased; cbn;
                      rewrite Hpaused; reflexivity)
                Hs) as (Hd & _).
    rewrite Hd, update_mode.
    unfold resumedLate; rewrite Hreleased; reflexivity.
Qed.

(** X28: the camera follows the drone, in exact real arithmetic and with
    gamepads that report the four axes of the standard layout (no overflow
    to NaN, no missing axis).  In any state the game can reach from
    [new Game()], after a frame of the running game that returns, the camera
    has the drone's orientation and sits at distance sqrt(0.05) from the
    drone's position. *)
Theorem camera_follows_drone (events : list Game.event)
    (gamepads : list (option Gamepad)) (dt : R) (rnd : Draws) :
  let g := Game.run raycast Game.new events in
  let g' := snd (Game.animate raycast g gamepads dt rnd) in
  Game.isPlaying g = true ->
  Game.isPaused g = false ->
  fst (Game.animate raycast g gamepads dt rnd) = Normal tt ->
  Object3D.quaternion (Game.camera g')
  = Object3D.quaternion (Drone.mesh (Game.drone g')) /\
  exists offset,
    Object3D.position (Game.camera g')
    = Vector3.add (Object3D.position (Drone.mesh (Game.drone g'))) offset /\
    Vector3.length offset = sqrt 0.05.
Proof.
  intros g g' Hplaying Hpaused Hreturned.
  assert (Hhealthy : healthy g').
  { apply healthy_animate, healthy_run, healthy_new. }
  destruct Hhealthy as (Hnorm & _).
  destruct (fst (InputHandler.getState gamepads (Game.input g)))
    as [s|msg] eqn:Hs.
  - destruct (animate_running g gamepads dt rnd s Hplaying Hpaused Hs)
      as (_ & _ & _ & _ & _ & Hcamera & _).
    fold g' in Hcamera; rewrite (Hcamera Hreturned).
    exact (updateCamera_pose (Game.drone g') Hnorm).
  - exfalso; revert Hreturned.
    unfold Game.animate; rewrite Hplaying, Hpaused; cbn [negb].
    destruct (InputHandler.getState gamepads (Game.input g)) as [polled h].
    cbn [fst] in Hs; subst polled; discriminate.
Qed.

End GameFrames.

Lemma held_pad_button_flips_mode_twice_witness :
  let g :=
    Game.handle openSky cityGame (Game.GamepadConnected padButtonHeld) in
  let g1 := snd (Game.animate openSky g [Some padButtonHeld] 0.016 evenDraws) in
  let g2 :=
    snd (Game.animate openSky g1 [Some padButtonHeld] 0.016 evenDraws) in
  Drone.mode (Game.drone g1) = LEVEL /\
  Drone.mode (Game.drone g2) = ACRO.
Proof.
  intros g.
  apply (held_pad_button_flips_mode_twice openSky g 0
           [Some padButtonHeld] [Some padButtonHeld]
           padButtonHeld padButtonHeld [] [] 0.016 0.016
           evenDraws evenDraws); reflexivity.
Defined.

Lemma pause_keeps_pending_toggle_witness :
  let g := Game.togglePause cityGame in
  let pressed := Game.onKeyDown g "KeyM" in
  let idle := snd (Game.animate openSky pressed [] 0.016 evenDraws) in
  let resumed := Game.togglePause idle in
  let released := Game.handle openSky idle (Game.KeyUp "KeyM") in
  let resumedLate := Game.togglePause released in
  idle = pressed /\
  Drone.mode
    (Game.drone (snd (Game.animate openSky resumed [] 0.016 evenDraws)))
  = LEVEL /\
  Drone.mode
    (Game.drone (snd (Game.animate openSky resumedLate [] 0.016 evenDraws)))
  = ACRO.
Proof.
  intros g.
  apply (pause_keeps_pending_toggle openSky g [] [] 0.016 0.016
           evenDraws evenDraws); reflexivity.
Defined.

Lemma camera_follows_drone_witness :
  let g := Game.run openSky Game.new [Game.ClickMap CITY (fun _ => 0.5)] in
  let g' := snd (Game.animate openSky g [] 0.016 evenDraws) in
  Object3D.quaternion (Game.camera g')
  = Object3D.quaternion (Drone.mesh (Game.drone g')) /\
  exists offset,
    Object3D.position (Game.camera g')
    = Vector3.add (Object3D.position (Drone.mesh (Game.drone g'))) offset /\
    Vector3.length offset = sqrt 0.05.
Proof.
  apply (camera_follows_drone openSky
           [Game.ClickMap CITY (fun _ => 0.5)] [] 0.016 evenDraws);
    reflexivity.
Defined.

(** X29: starting a map gives a fresh, running game but keeps the flight
    mode.  Whatever the state before, after [startGame] the game is playing
    and not paused, the drone is at (0, 2, 0), level and at rest, its flight
    mode and the mute setting are what they were, the audio manager is
    initialised, and the map holds 56 (city) or 106 (jungle) objects. *)
Theorem startGame_fresh (g : Game.t) (mapType : MapType)
    (random : nat -> R) :
  let g' := Game.startGame g mapType random in
  Game.isPlaying g' = true /\
  Game.isPaused g' = false /\
  Drone.mesh (Game.drone g')
  = Object3D.mk (Vector3.mk 0 2 0) Quaternion.identity /\
  Drone.velocity (Game.drone g') = Vector3.zero /\
  Drone.angularVelocity (Game.drone g') = Vector3.zero /\
  Drone.mode (Game.drone g') = Drone.mode (Game.drone g) /\
  AudioManager.isInitialized (Game.audio g') = true /\
  AudioManager.isMuted (Game.audio g') = AudioManager.isMuted (Game.audio g) /\
  length (EnvironmentManager.objects (Game.envManager g'))
  = match mapType with CITY => 56%nat | JUNGLE => 106%nat end.
Proof.
  intros g'.
  split; [reflexivity|].
  split; [reflexivity|].
  split; [apply resetDrone_pose|].
  split; [reflexivity|].
  split; [reflexivity|].
  split; [reflexivity|].
  unfold g', Game.startGame, Game.resetDrone;
    cbn [Game.audio Game.with_drone Game.envManager].
  split; [|split].
  - unfold AudioManager.init.
    destruct (AudioManager.isInitialized (Game.audio g)) eqn:Hinit;
      [exact Hinit|reflexivity].
  - unfold AudioManager.init.
    destruct (AudioManager.isInitialized (Game.audio g)); reflexivity.
  - destruct mapType;
      unfold EnvironmentManager.loadCity, EnvironmentManager.loadJungle,
        EnvironmentManager.addGates;
      cbn [EnvironmentManager.objects EnvironmentManager.clear app length];
      rewrite length_app, !length_map, !length_seq; reflexivity.
Qed.

(** ** A frame of no duration *)

Lemma beforeCollisionCheck_zero_dt (d : Drone.t) (input : InputState.t) :
  Drone.mode d = ACRO ->
  Drone.beforeCollisionCheck d 0 input = d.
Proof.
  intros Hmode.
  unfold Drone.beforeCollisionCheck, Drone.updateVelocity,
    Drone.applyRotation, Drone.rotationLogic; rewrite Hmode.
  unfold Object3D.rotateX, Object3D.rotateY, Object3D.rotateZ.
  rewrite !rotateOnAxis_by_zero by ring.
  destruct d as [m [vx vy vz] [wx wy wz] r mt ma dr ad ar an ls gr mo cr].
  cbn in Hmode; subst mo.
  unfold Drone.with_velocity, Drone.with_mesh, Drone.with_angularVelocity,
    Vector3.add, Vector3.multiplyScalar, Vector3.lerp; cbn.
  f_equal; f_equal; ring.
Qed.

(** X30: a frame of no duration.  In ACRO mode, with the drone at or above
    the ground clearance, [update] with dt = 0 returns the drone unchanged
    unless the collision check fires; and it can fire, since the look-ahead
    never drops below collisionRadius: then the velocity is reflected and
    halved although no time has passed. *)
Theorem zero_timestep (d : Drone.t) (input : InputState.t)
    (collidables : list Collidable) (rnd : Draws) :
  Drone.mode d = ACRO ->
  0.2 <= Vector3.y (Object3D.position (Drone.mesh d)) ->
  (~ Drone.crashes d 0 collidables ->
   Drone.update d 0 input collidables rnd = d) /\
  (Drone.crashes d 0 collidables ->
   Drone.update d 0 input collidables rnd = Drone.crash d rnd).
Proof.
  intros Hmode Hhigh.
  assert (Hstep :
    forall d0 : Drone.t,
      Object3D.position (Drone.mesh d0) = Object3D.position (Drone.mesh d) ->
      Drone.groundCollision (Drone.updatePosition d0 0) = d0).
  { intros d0 Hpos.
    assert (Hsame : Drone.updatePosition d0 0 = d0).
    { unfold Drone.updatePosition.
      destruct d0 as [[[px py pz] q] [vx vy vz] w r mt ma dr ad ar an ls gr
                        mo cr].
      unfold Drone.with_mesh, Vector3.add, Vector3.multiplyScalar; cbn.
      do 3 f_equal; ring. }
    rewrite Hsame; apply groundCollision_off; rewrite Hpos; exact Hhigh. }
  unfold Drone.update, Drone.beforeGroundCollision.
  rewrite (beforeCollisionCheck_zero_dt d input Hmode).
  split; intros Hcrash.
  - rewrite checkCollisions_no_crash by exact Hcrash.
    apply Hstep; reflexivity.
  - rewrite checkCollisions_crash by exact Hcrash.
    apply Hstep; reflexivity.
Qed.

Lemma zero_timestep_witness :
  let d := Drone.beforeCollisionCheck Drone.new 1 sticksCentred in
  Drone.update d 0 sticksCentred [] evenDraws = d /\
  Drone.update d 0 sticksCentred [wallAt 0.3] evenDraws
  = Drone.crash d evenDraws.
Proof.
  intros d.
  destruct (zero_timestep d sticksCentred [] evenDraws)
    as (Hquiet & _); [reflexivity|cbn; lra|].
  destruct (zero_timestep d sticksCentred [wallAt 0.3] evenDraws)
    as (_ & Hcrash); [reflexivity|cbn; lra|].
  split; [apply Hquiet, no_collidables_no_crash|].
  apply Hcrash.
  split; [discriminate|].
  split.
  - apply speed_at_least_y; [lra|].
    unfold d; rewrite new_free_fall; cbn; lra.
  - exists 0.3, []; split; [reflexivity|].
    eapply Rlt_le_trans; [|apply Rmax_l]. cbn; lra.
Defined.
